(** * Kritis: policy evaluation and attestation trust engine

    A shallow embedding of the vulnerability signing policy evaluator
    (pkg/kritis/crd/vulnzsigningpolicy), the attestation signer
    (pkg/kritis/signer) and the attestation verifier
    (pkg/kritis/cryptolib), with the properties of the design document
    stated and proved over it.  The admission review engine
    (pkg/kritis/review) is known by its test file only: it is modelled
    from the design document, on top of the verifier, and run on every row
    of its test tables.

    Functions of other libraries and of files that are not at hand are
    parameters: fields of a class, or variables of a section.

    Go values are embedded as follows: [string] is [string]; [[]byte] is
    [list byte]; a [map[string]T] is a [gmap string T], read with the zero
    value as default; [error] is the message; a function returning
    [(T, error)] returns both components when the Go code does so on the
    error path, and a [result] otherwise. *)

From Stdlib Require Import ZArith Lia Ascii String List Bool.
From stdpp Require Import base option strings list gmap pretty.

Import ListNotations.
Local Open Scope string_scope.
Local Open Scope Z_scope.
Local Open Scope list_scope.

(** ** Common Go types *)

Definition error := string.

Inductive result (A : Type) : Type :=
| Ok (a : A)
| Err (e : error).
Arguments Ok {A} a.
Arguments Err {A} e.

Definition isOk {A} (r : result A) : bool :=
  match r with Ok _ => true | Err _ => false end.

Abbreviation bytes := (list Byte.byte).

#[global] Instance byte_eq_dec : EqDecision Byte.byte := Byte.byte_eq_dec.

(** The verb [%q] of [fmt]: the string between double quotes.  The escapes
    Go adds for quotes, backslashes and unprintable characters inside the
    string are not rendered. *)
Definition fmtQ (s : string) : string :=
  String (ascii_of_nat 34) (s +:+ String (ascii_of_nat 34) EmptyString).

(** [m[k]] on a Go [map[string]bool]: a missing key reads [false]. *)
Definition mapGetBool (m : gmap string bool) (k : string) : bool :=
  default false (m !! k).

(** ** package constants, and the severity table of the vulnerability proto

    Neither is among the sources; the evaluator is embedded for any values
    of the names and any table. *)

Module constants.
(** The severity names of package constants that the evaluator reads. *)
Class Names : Type := {
  BlockAll : string;
  AllowAll : string;
  Critical : string
}.
End constants.

Module vulnerability.
(** [vulnerability.Severity_value], the generated name-to-number table of
    the [Severity] enum. *)
Class Table : Type := {
  Severity_value : gmap string Z
}.
End vulnerability.

(** ** package metadata / v1beta1: the records the evaluator reads *)

Record Vulnerability : Type := mkVulnerability {
  Severity : string;
  HasFixAvailable : bool;
  CVE : string
}.

Definition zeroVulnerability : Vulnerability := mkVulnerability "" false "".

Record ImageVulnerabilityRequirements : Type := mkRequirements {
  MaximumFixableSeverity : string;
  MaximumUnfixableSeverity : string;
  AllowlistCVEs : list string
}.

Record VulnzSigningPolicy : Type := mkVulnzSigningPolicy {
  vspName : string;
  vspRequirements : ImageVulnerabilityRequirements
}.

(** ** package policy: violations *)

Inductive ViolationType : Type :=
| UnqualifiedImageViolation
| FixUnavailableViolation
| SeverityViolation.

(** The reason texts are built by [UnqualifiedImageReason],
    [UnfixableSeverityViolationReason] and [FixableSeverityViolationReason];
    a reason is kept as the call that builds it. *)
Inductive Reason : Type :=
| UnqualifiedImageReason (image : string)
| UnfixableSeverityViolationReason (image : string) (v : Vulnerability)
    (vsp : VulnzSigningPolicy)
| FixableSeverityViolationReason (image : string) (v : Vulnerability)
    (vsp : VulnzSigningPolicy)
| OtherReason (text : string).

Record Violation : Type := mkViolation {
  vulnerability_ : Vulnerability;
  vType : ViolationType;
  reason : Reason
}.

(** ** package vulnzsigningpolicy *)

Module vulnzsigningpolicy.

Definition makeCVEAllowlistMap (vsp : VulnzSigningPolicy) : gmap string bool :=
  fold_left (fun m w => <[w := true]> m)
    (AllowlistCVEs (vspRequirements vsp)) ∅.

Section WithSeverities.
Context `{constants.Names} `{vulnerability.Table}.

Definition severityWithinThreshold (maxSeverity severity : string)
  : bool * option error :=
  if decide (maxSeverity = constants.BlockAll) then (false, None)
  else if decide (maxSeverity = constants.AllowAll) then (true, None)
  else
    match vulnerability.Severity_value !! maxSeverity with
    | None => (false, Some ("invalid max severity level: " +:+ maxSeverity))
    | Some maxRank =>
      match vulnerability.Severity_value !! severity with
      | None => (false, Some ("invalid severity level: " +:+ severity))
      | Some rank => (rank <=? maxRank, None)
      end
    end.

(** The body of [for _, v := range vulnz]; [violations] is the slice
    appended to so far.  [continue] is the recursive call, [return] ends
    the loop with what has been accumulated. *)
Fixpoint rangeVulnz (vsp : VulnzSigningPolicy) (image : string)
    (maxSev maxNoFixSev : string) (cveAllowlistMap : gmap string bool)
    (vulnz : list Vulnerability) (violations : list Violation)
  : list Violation * option error :=
  match vulnz with
  | [] => (violations, None)
  | v :: rest =>
    let continue := rangeVulnz vsp image maxSev maxNoFixSev cveAllowlistMap rest in
    if mapGetBool cveAllowlistMap (CVE v) then continue violations
    else if negb (HasFixAvailable v) then
      match severityWithinThreshold maxNoFixSev (Severity v) with
      | (_, Some err) => (violations, Some err)
      | (true, None) => continue violations
      | (false, None) =>
        continue (violations ++
          [mkViolation v FixUnavailableViolation
             (UnfixableSeverityViolationReason image v vsp)])
      end
    else
      match severityWithinThreshold maxSev (Severity v) with
      | (_, Some err) => (violations, Some err)
      | (true, None) => continue violations
      | (false, None) =>
        continue (violations ++
          [mkViolation v SeverityViolation
             (FixableSeverityViolationReason image v vsp)])
      end
  end.

Section Evaluator.
(** [resolve.FullyQualifiedImage], of package kubectl/plugins/resolve. *)
Variable FullyQualifiedImage : string -> bool.

Definition ValidateVulnzSigningPolicy (vsp : VulnzSigningPolicy)
    (image : string) (vulnz : list Vulnerability)
  : list Violation * option error :=
  let violations : list Violation := [] in
  if negb (FullyQualifiedImage image) then
    (violations ++
       [mkViolation zeroVulnerability UnqualifiedImageViolation
          (UnqualifiedImageReason image)], None)
  else
    let maxSev := MaximumFixableSeverity (vspRequirements vsp) in
    let maxSev := if decide (maxSev = "") then constants.Critical else maxSev in
    let maxNoFixSev := MaximumUnfixableSeverity (vspRequirements vsp) in
    let maxNoFixSev :=
      if decide (maxNoFixSev = "") then constants.AllowAll else maxNoFixSev in
    if (0 <? length vulnz)%nat then
      let cveAllowlistMap := makeCVEAllowlistMap vsp in
      rangeVulnz vsp image maxSev maxNoFixSev cveAllowlistMap vulnz violations
    else (violations, None).
End Evaluator.
End WithSeverities.

End vulnzsigningpolicy.

(** ** package cryptolib (attestlib): public keys and the verifier *)

Module cryptolib.

Inductive KeyType : Type :=
| UnknownKeyType
| Pgp
| Pkix
| Jwt.

(** [SignatureAlgorithm] is an integer enumeration; only its value is
    carried around. *)
Definition SignatureAlgorithm := Z.

Record PublicKey : Type := mkPublicKey {
  KeyType_ : KeyType;
  SignatureAlgorithm_ : SignatureAlgorithm;
  KeyData : bytes;
  ID : string
}.

Record Attestation : Type := mkAttestation {
  PublicKeyID : string;
  Signature : bytes;
  SerializedPayload : bytes
}.

(** An entity of an OpenPGP key ring, reduced to the field read here:
    [PrimaryKey.Fingerprint], a [[20]byte]. *)
Record Entity : Type := mkEntity {
  Fingerprint : bytes
}.

(** The result of [name.NewDigest]: [Repository.Name()] and [DigestStr()]. *)
Record Digest : Type := mkDigest {
  RepositoryName : string;
  DigestStr : string
}.

(** The functions of other libraries and of the files of this package that
    hold the signature schemes. *)
Class Externals : Type := {
  (** [openpgp.ReadArmoredKeyRing] *)
  ReadArmoredKeyRing : bytes -> result (list Entity);
  (** [url.ParseRequestURI], its error only *)
  ParseRequestURI : string -> option error;
  (** [name.NewDigest] with [name.StrictValidation] *)
  NewDigest : string -> result Digest;
  (** [pgpVerifierImpl.verifyPgp] *)
  verifyPgpImpl : bytes -> bytes -> result bytes;
  (** [jwtVerifierImpl.verifyJwt] *)
  verifyJwtImpl : bytes -> PublicKey -> result bytes;
  (** [authenticatedAttCheckerImpl.checkAuthenticatedAttestation], applied
      to [convertAuthenticatedAttestation] *)
  checkAuthenticatedAttestationImpl : bytes -> string -> string -> option error
}.

(** [fmt.Sprintf("%X", b)] on a byte array: two upper-case hexadecimal
    digits per byte, no separator. *)
Definition upperHexDigit (n : N) : ascii :=
  if (n <? 10)%N then ascii_of_N (48 + n) else ascii_of_N (55 + n).

Definition sprintfX (b : bytes) : string :=
  fold_right
    (fun x acc =>
       let n := Byte.to_N x in
       String (upperHexDigit (n / 16)) (String (upperHexDigit (n mod 16)) acc))
    "" b.

(** [strings.Contains(s, ":")] *)
Fixpoint containsColon (s : string) : bool :=
  match s with
  | EmptyString => false
  | String c rest => if decide (c = ":"%char) then true else containsColon rest
  end.

Record verifier : Type := mkVerifier {
  ImageName : string;
  ImageDigest : string;
  PublicKeys : gmap string PublicKey;
  verifyPkix : bytes -> bytes -> bytes -> option error;
  verifyPgp : bytes -> bytes -> result bytes;
  verifyJwt : bytes -> PublicKey -> result bytes;
  checkAuthenticatedAttestation : bytes -> string -> string -> option error
}.

(** [pkixVerifierImpl.verifyPkix] *)
Definition verifyPkixImpl (signature payload publicKey : bytes) : option error :=
  Some "verify pkix not implemented".

Definition indexPublicKeysByID (publicKeyset : list PublicKey)
  : gmap string PublicKey :=
  fold_left (fun keyMap publicKey => <[ID publicKey := publicKey]> keyMap)
    publicKeyset ∅.

Definition VerifyAttestation (v : verifier) (att : Attestation) : option error :=
  match PublicKeys v !! PublicKeyID att with
  | None => Some ("no public key with ID " +:+ fmtQ (PublicKeyID att) +:+ " found")
  | Some publicKey =>
    let checked (r : result bytes) : option error :=
      match r with
      | Err err => Some err
      | Ok payload =>
        checkAuthenticatedAttestation v payload (ImageName v) (ImageDigest v)
      end in
    match KeyType_ publicKey with
    | Pkix =>
      match verifyPkix v (Signature att) (SerializedPayload att)
              (KeyData publicKey) with
      | Some err => Some err
      | None => checked (Ok (SerializedPayload att))
      end
    | Pgp => checked (verifyPgp v (Signature att) (KeyData publicKey))
    | Jwt => checked (verifyJwt v (Signature att) publicKey)
    | UnknownKeyType => Some "signature uses an unsupported key mode"
    end
  end.

Section WithExternals.
Context `{Externals}.

Definition extractPgpKeyID (keyData : bytes) : result string :=
  match ReadArmoredKeyRing keyData with
  | Err err => Err ("error reading armored public key: " +:+ err)
  | Ok keyring =>
    match keyring with
    | [entity] => Ok (sprintfX (Fingerprint entity))
    | _ => Err ("expected 1 public key, got " +:+ pretty (length keyring))
    end
  end.

Definition extractPkixKeyID (keyData : bytes) (keyID : string) : result string :=
  if containsColon keyID then
    match ParseRequestURI keyID with
    | Some _ =>
      Err ("keyID " +:+ fmtQ keyID +:+
           " not formatted as StringOrURI: must either not contain " +:+ fmtQ ":"
           +:+ " or be valid URI")
    | None => Ok keyID
    end
  else Ok keyID.

Definition NewPublicKey (keyType : KeyType)
    (signatureAlgorithm : SignatureAlgorithm) (keyData : bytes)
    (keyID : string) : result PublicKey :=
  let build (newKeyID : string) :=
    Ok (mkPublicKey keyType signatureAlgorithm keyData newKeyID) in
  match keyType with
  | Pgp =>
    match extractPgpKeyID keyData with
    | Err err => Err err
    | Ok id => build id
    end
  | Pkix | Jwt =>
    match extractPkixKeyID keyData keyID with
    | Err err => Err err
    | Ok id => build id
    end
  | UnknownKeyType => Err "invalid key type"
  end.

Definition NewVerifier (image : string) (publicKeySet : list PublicKey)
  : result verifier :=
  match NewDigest image with
  | Err err => Err ("invalid image name: " +:+ err)
  | Ok digest =>
    let keyMap := indexPublicKeysByID publicKeySet in
    Ok (mkVerifier (RepositoryName digest) (DigestStr digest) keyMap
          verifyPkixImpl verifyPgpImpl verifyJwtImpl
          checkAuthenticatedAttestationImpl)
  end.
End WithExternals.

End cryptolib.

(** ** package v1beta1: attestation authorities *)

Record AttestationAuthority : Type := mkAuthority {
  authName : string;
  NoteReference : string;
  authPublicKeys : list cryptolib.PublicKey
}.

(** ** package signer *)

Module signer.
Import cryptolib.

Inductive SignatureType : Type :=
| PgpSignatureType
| GenericSignatureType.

(** What a [grafeas.Note] and a [grafeas.Occurrence] are read for. *)
Record Note : Type := mkNote { noteName : string }.

Record Occurrence : Type := mkOccurrence {
  occNote : string;
  occImage : string;
  occAttestation : Attestation;
  occProject : string;
  occSignatureType : SignatureType
}.

(** The calls a signer makes on its collaborators, in the order made. *)
Inductive Call : Type :=
| CallAttestations (image : string) (auth : AttestationAuthority)
| CallDeleteAttestationOccurrence (image : string) (auth : AttestationAuthority)
| CallCreateAttestation (payload : bytes)
| CallGetOrCreateAttestationNote (auth : AttestationAuthority)
| CallUploadAttestationOccurrence (note image : string) (att : Attestation)
    (project : string) (sigType : SignatureType).

Section WithBackend.
(** The state behind the collaborators: the metadata store and the
    signing capability. *)
Context {B : Type}.

(** [metadata.ReadWriteClient], the methods the signer calls.
    [GetOrCreateAttestationNote] is the helper of package util, which
    works through the client. *)
Record ReadWriteClient : Type := mkClient {
  Attestations :
    string -> AttestationAuthority -> B -> (list Attestation * option error) * B;
  DeleteAttestationOccurrence :
    string -> AttestationAuthority -> B -> option error * B;
  GetOrCreateAttestationNote :
    AttestationAuthority -> B -> result Note * B;
  UploadAttestationOccurrence :
    string -> string -> Attestation -> string -> SignatureType -> B ->
    result Occurrence * B
}.

(** [attestlib.Signer] *)
Record cSignerT : Type := mkCSigner {
  CreateAttestation : bytes -> B -> result Attestation * B
}.

Record config : Type := mkConfig {
  cSigner : cSignerT;
  authority : AttestationAuthority;
  project : string;
  overwrite : bool
}.

Record Signer : Type := mkSigner {
  config_ : config;
  client : ReadWriteClient
}.

Definition New (client : ReadWriteClient) (cSigner : cSignerT)
    (noteName project : string) (overwrite : bool) : Signer :=
  mkSigner
    (mkConfig cSigner (mkAuthority "signing-aa" noteName []) project overwrite)
    client.

(** The backend together with the log of calls made on it. *)
Record World : Type := mkWorld {
  backend : B;
  calls : list Call
}.

Definition M (A : Type) : Type := World -> A * World.

Definition ret {A} (a : A) : M A := fun w => (a, w).

Definition bind {A C} (m : M A) (k : A -> M C) : M C :=
  fun w => let (a, w') := m w in k a w'.

(** One call on a collaborator: it is logged, then run on the backend. *)
Definition call {A} (c : Call) (op : B -> A * B) : M A :=
  fun w =>
    let (a, b') := op (backend w) in
    (a, mkWorld b' (calls w ++ [c])).

Section WithPayload.
(** [attestation.AtomicContainerPayload] *)
Variable AtomicContainerPayload : string -> result bytes.

Definition isAttestationAlreadyExist (s : Signer) (image : string)
  : M (bool * option error) :=
  bind (call (CallAttestations image (authority (config_ s)))
          (Attestations (client s) image (authority (config_ s))))
    (fun '(atts, err) =>
       if bool_decide (err = None) && (0 <? length atts)%nat
       then ret (true, None)
       else ret (false, err)).

Definition createAttestation (s : Signer) (image : string)
  : M (result Attestation) :=
  match AtomicContainerPayload image with
  | Err err => ret (Err err)
  | Ok payload =>
    bind (call (CallCreateAttestation payload)
            (CreateAttestation (cSigner (config_ s)) payload))
      (fun r =>
         match r with
         | Err err => ret (Err err)
         | Ok att => ret (Ok att)
         end)
  end.

Definition uploadAttestation (s : Signer) (image : string)
    (att : Attestation) : M (option error) :=
  bind (call (CallGetOrCreateAttestationNote (authority (config_ s)))
          (GetOrCreateAttestationNote (client s) (authority (config_ s))))
    (fun r =>
       match r with
       | Err err => ret (Some err)
       | Ok note =>
         bind (call (CallUploadAttestationOccurrence (noteName note) image
                       att (project (config_ s)) GenericSignatureType)
                 (UploadAttestationOccurrence (client s) (noteName note)
                    image att (project (config_ s)) GenericSignatureType))
           (fun r =>
              match r with
              | Err err => ret (Some err)
              | Ok _ => ret None
              end)
       end).

Definition SignImage (s : Signer) (image : string) : M (option error) :=
  bind (isAttestationAlreadyExist s image)
    (fun '(existed, err) =>
       match err with
       | Some err =>
         ret (Some ("checking existing attestation status failed: " +:+ err))
       | None =>
         if existed && negb (overwrite (config_ s)) then ret None
         else
           bind
             (if existed && overwrite (config_ s) then
                call (CallDeleteAttestationOccurrence image
                        (authority (config_ s)))
                  (DeleteAttestationOccurrence (client s) image
                     (authority (config_ s)))
              else ret None)
             (fun err =>
                match err with
                | Some err =>
                  ret (Some ("deleting existing attestation failed: " +:+ err))
                | None =>
                  bind (createAttestation s image)
                    (fun r =>
                       match r with
                       | Err err =>
                         ret (Some ("creatiing attestation failed: " +:+ err))
                       | Ok att =>
                         bind (uploadAttestation s image att)
                           (fun err =>
                              match err with
                              | Some err =>
                                ret (Some ("uploading attestation failed: "
                                           +:+ err))
                              | None => ret None
                              end)
                       end)
                end)
       end).
End WithPayload.
End WithBackend.

Arguments ReadWriteClient : clear implicits.
Arguments cSignerT : clear implicits.
Arguments config : clear implicits.
Arguments Signer : clear implicits.
Arguments World : clear implicits.

End signer.

(** ** package review: the admission review engine *)

Module review.
Import cryptolib.

Record AdmissionAllowlistPatternSpec : Type := mkPattern {
  NamePattern : string
}.

Record GenericAttestationPolicy : Type := mkGAP {
  gapNamespace : string;
  AdmissionAllowlistPatterns : list AdmissionAllowlistPatternSpec;
  AttestationAuthorityNames : list string
}.

Record ImageSecurityPolicy : Type := mkISP {
  ispNamespace : string;
  AttestationAuthorityName : string;
  PrivateKeySecretName : string;
  PackageVulnerabilityRequirements : ImageVulnerabilityRequirements
}.

(** Modelled from the spec: the signing secret the secret resolver returns
    (package secrets is not among the sources). *)
Record PGPSigningSecret : Type := mkSecret {
  SecretName : string;
  PgpKey : bytes
}.

(** Modelled from the spec: the recording strategy of the review engine
    (package violation is not among the sources).  It is the in-memory
    strategy the tests read: [Violations[image]] is set when violations
    are handled for the image, [Attestations[image]] holds the last
    recorded attestation state of the image. *)
Record MemoryStrategy : Type := mkStrategy {
  Violations : gmap string bool;
  Attestations : gmap string bool
}.

(** Modelled from the spec: the strategy at the start of a test. *)
Definition emptyStrategy : MemoryStrategy := mkStrategy ∅ ∅.

(** Modelled from the spec: [RecordViolation(image)]. *)
Definition HandleViolation (image : string) (violations : list Violation)
    (th : MemoryStrategy) : MemoryStrategy :=
  mkStrategy (<[image := true]> (Violations th)) (Attestations th).

(** Modelled from the spec: [RecordAttestation(image)], with the state
    found. *)
Definition HandleAttestation (image : string) (isAttested : bool)
    (th : MemoryStrategy) : MemoryStrategy :=
  mkStrategy (Violations th) (<[image := isAttested]> (Attestations th)).

(** Modelled from the spec: the metadata client as the review engine sees
    it (section 6; package metadata is not among the sources):
    [Attestations(image, authority)], [GetOrCreateNote(authority)] and
    [UploadAttestationOccurrence], whose successful uploads accumulate in
    [Occ] and whose failures are given by [uploadError]. *)
Record MetadataClient : Type := mkMetadataClient {
  Atts : string -> AttestationAuthority -> list Attestation;
  GetOrCreateNote : AttestationAuthority -> string;
  uploadError : string -> string -> Attestation -> option error;
  Occ : list (string * string * Attestation)
}.

(** Modelled from the spec: [UploadAttestationOccurrence] (section 6). *)
Definition UploadAttestationOccurrence (c : MetadataClient)
    (note image : string) (att : Attestation) : option error * MetadataClient :=
  match uploadError c note image att with
  | Some err => (Some err, c)
  | None =>
    (None,
     mkMetadataClient (Atts c) (GetOrCreateNote c) (uploadError c)
       (Occ c ++ [(note, image, att)]))
  end.

(** Modelled from the spec: the collaborators injected at construction
    (section 4.3; [Config] as the tests build it), the recording strategy
    apart: it is the state the review threads. *)
Record Config : Type := mkConfig {
  Validate :
    ImageSecurityPolicy -> string -> MetadataClient ->
    list Violation * option error;
  Secret : string -> string -> result PGPSigningSecret;
  Auths : string -> string -> result AttestationAuthority;
  IsWebhook : bool
}.

(** Modelled from the spec: how [ReviewGAP] found one policy on one image
    (section 4.3, steps 1, 4 and 5). *)
Inductive PolicyOutcome : Type :=
| SatisfiedByAllowlist
| SatisfiedByAttestations
| Unsatisfied.

Section WithCollaborators.
Context `{Externals}.
(** The operator's global image allowlist, matched exactly. *)
Variable globalAllowlist : list string.
(** Whether an admission allowlist pattern matches an image. *)
Variable patternMatches : string -> string -> bool.
(** The signing capability applied to the payload of an image. *)
Variable CreateAttestation : string -> PGPSigningSecret -> result Attestation.

(** Modelled from the spec: the global allowlist short-circuit (section
    4.3, step 6). *)
Definition RemoveGloballyAllowedImages (images : list string) : list string :=
  filter (fun image => image ∉ globalAllowlist) images.

(** Modelled from the spec: the image matches one of the admission
    allowlist patterns of the policy (section 4.3, step 1). *)
Definition isAllowlisted (gap : GenericAttestationPolicy) (image : string) : bool :=
  existsb (fun p => patternMatches (NamePattern p) image)
    (AdmissionAllowlistPatterns gap).

(** Modelled from the spec: resolution of the named authorities (section
    4.3, step 2), in order; the first name that does not resolve is the
    error. *)
Fixpoint resolveAuthorities (cfg : Config) (ns : string) (names : list string)
  : result (list AttestationAuthority) :=
  match names with
  | [] => Ok []
  | name :: rest =>
    match Auths cfg ns name with
    | Err err => Err err
    | Ok auth =>
      match resolveAuthorities cfg ns rest with
      | Err err => Err err
      | Ok auths => Ok (auth :: auths)
      end
    end
  end.

(** Modelled from the spec: the authorities of a GAP, as
    TestGetAttestationAuthoritiesForGAP has them. *)
Definition getAttestationAuthoritiesForGAP (cfg : Config)
    (gap : GenericAttestationPolicy) : result (list AttestationAuthority) :=
  resolveAuthorities cfg (gapNamespace gap) (AttestationAuthorityNames gap).

(** Modelled from the spec: resolution of the single authority of an ISP
    (section 4.3, step 1).  As TestGetAttestationAuthoritiesForISP has it,
    an empty name yields no authority and no error. *)
Definition getAttestationAuthorityForISP (cfg : Config)
    (isp : ImageSecurityPolicy) : result (option AttestationAuthority) :=
  if decide (AttestationAuthorityName isp = "") then Ok None
  else
    match Auths cfg (ispNamespace isp) (AttestationAuthorityName isp) with
    | Err err => Err err
    | Ok auth => Ok (Some auth)
    end.

(** Modelled from the spec: section 4.3, step 3, at least one of the
    attestations verifies against the keys of the authority.  A verifier
    that cannot be built and an attestation that does not verify count as
    not verified. *)
Definition hasValidImageAttestations (image : string)
    (attestations : list Attestation) (auth : AttestationAuthority) : bool :=
  match NewVerifier image (authPublicKeys auth) with
  | Err _ => false
  | Ok v =>
    existsb (fun att => bool_decide (VerifyAttestation v att = None)) attestations
  end.

(** Modelled from the spec: fetch the attestations of the image, then
    verify them against the authority (section 4.3, step 3). *)
Definition fetchAndVerifyAttestations (c : MetadataClient) (image : string)
    (auth : AttestationAuthority) : bool :=
  hasValidImageAttestations image (Atts c image auth) auth.

(** Modelled from the spec: one policy of [ReviewGAP] on one image
    (section 4.3; review.go is not among the sources).  A policy with no
    authority fails, allowlisted or not (step 5, and the rows of
    TestReviewGAP on the policy without attestor); otherwise an
    allowlist match satisfies it with no attestation check (step 1);
    otherwise every named authority is resolved (step 2) and the policy
    is satisfied iff each of them has a verifying attestation (steps 3
    and 4). *)
Definition reviewPolicy (cfg : Config) (c : MetadataClient) (image : string)
    (gap : GenericAttestationPolicy) : result PolicyOutcome :=
  match AttestationAuthorityNames gap with
  | [] => Ok Unsatisfied
  | _ :: _ =>
    if isAllowlisted gap image then Ok SatisfiedByAllowlist
    else
      match getAttestationAuthoritiesForGAP cfg gap with
      | Err err => Err err
      | Ok auths =>
        if forallb (fetchAndVerifyAttestations c image) auths
        then Ok SatisfiedByAttestations
        else Ok Unsatisfied
      end
  end.

(** Modelled from the spec: section 4.3, step 6, the policies are tried in
    order and the first satisfied one admits the image. *)
Fixpoint reviewImageGAP (cfg : Config) (c : MetadataClient) (image : string)
    (gaps : list GenericAttestationPolicy) : result PolicyOutcome :=
  match gaps with
  | [] => Ok Unsatisfied
  | gap :: rest =>
    match reviewPolicy cfg c image gap with
    | Err err => Err err
    | Ok Unsatisfied => reviewImageGAP cfg c image rest
    | Ok outcome => Ok outcome
    end
  end.

(** Modelled from the spec: section 4.3, step 7, image by image.  A quorum
    is recorded as [true], an image no policy admits is recorded as [false]
    and fails the review, an allowlisted image passes with nothing
    recorded. *)
Fixpoint reviewImagesGAP (cfg : Config) (c : MetadataClient)
    (gaps : list GenericAttestationPolicy) (images : list string)
    (th : MemoryStrategy) : option error * MemoryStrategy :=
  match images with
  | [] => (None, th)
  | image :: rest =>
    match reviewImageGAP cfg c image gaps with
    | Err err => (Some err, th)
    | Ok SatisfiedByAllowlist => reviewImagesGAP cfg c gaps rest th
    | Ok SatisfiedByAttestations =>
      reviewImagesGAP cfg c gaps rest (HandleAttestation image true th)
    | Ok Unsatisfied =>
      (Some ("image is not attested: " +:+ image),
       HandleAttestation image false th)
    end
  end.

(** Modelled from the spec: [ReviewGAP] (section 4.3; review.go is not
    among the sources).  Globally allowed images are dropped first; with
    no image or no policy left there is nothing to review. *)
Definition ReviewGAP (cfg : Config) (images : list string)
    (gaps : list GenericAttestationPolicy) (c : MetadataClient)
    (th : MemoryStrategy) : option error * MemoryStrategy :=
  match RemoveGloballyAllowedImages images, gaps with
  | [], _ => (None, th)
  | _, [] => (None, th)
  | images, gaps => reviewImagesGAP cfg c gaps images th
  end.

(** Modelled from the spec: trust on first use (section 4.3, step 4), sign
    the image with the secret of the policy and upload the attestation
    under the note of the authority. *)
Definition addAttestation (cfg : Config) (c : MetadataClient) (image : string)
    (isp : ImageSecurityPolicy) (auth : AttestationAuthority)
  : option error * MetadataClient :=
  match Secret cfg (ispNamespace isp) (PrivateKeySecretName isp) with
  | Err err => (Some err, c)
  | Ok secret =>
    match CreateAttestation image secret with
    | Err err => (Some err, c)
    | Ok att => UploadAttestationOccurrence c (GetOrCreateNote c auth) image att
    end
  end.

(** Modelled from the spec: one policy of [ReviewISP] on one image
    (section 4.3, steps 1 to 4; review.go is not among the sources). *)
Definition reviewImageISP (cfg : Config) (image : string)
    (isp : ImageSecurityPolicy) (th : MemoryStrategy) (c : MetadataClient)
  : option error * MemoryStrategy * MetadataClient :=
  match getAttestationAuthorityForISP cfg isp with
  | Err err => (Some err, th, c)
  | Ok auth =>
    match Validate cfg isp image c with
    | (_, Some err) =>
      (Some ("error validating image security policy " +:+ err), th, c)
    | (violations, None) =>
      let isAttested :=
        match auth with
        | Some auth => fetchAndVerifyAttestations c image auth
        | None => false
        end in
      let th :=
        match auth with
        | Some _ => HandleAttestation image isAttested th
        | None => th
        end in
      if IsWebhook cfg then
        if isAttested then (None, th, c)
        else if (0 <? length violations)%nat then
          (Some ("found violations in " +:+ image),
           HandleViolation image violations th, c)
        else
          match auth with
          | Some auth =>
            let (err, c) := addAttestation cfg c image isp auth in
            (err, th, c)
          | None => (None, th, c)
          end
      else
        if (0 <? length violations)%nat then
          (Some ("found violations in " +:+ image),
           HandleViolation image violations th, c)
        else (None, th, c)
    end
  end.

(** Modelled from the spec: the policies of [ReviewISP] on one image; the
    first failure ends the review. *)
Fixpoint reviewISPs (cfg : Config) (image : string)
    (isps : list ImageSecurityPolicy) (th : MemoryStrategy)
    (c : MetadataClient) : option error * MemoryStrategy * MetadataClient :=
  match isps with
  | [] => (None, th, c)
  | isp :: rest =>
    match reviewImageISP cfg image isp th c with
    | (Some err, th, c) => (Some err, th, c)
    | (None, th, c) => reviewISPs cfg image rest th c
    end
  end.

(** Modelled from the spec: [ReviewISP], image by image. *)
Fixpoint reviewImagesISP (cfg : Config) (images : list string)
    (isps : list ImageSecurityPolicy) (th : MemoryStrategy)
    (c : MetadataClient) : option error * MemoryStrategy * MetadataClient :=
  match images with
  | [] => (None, th, c)
  | image :: rest =>
    match reviewISPs cfg image isps th c with
    | (Some err, th, c) => (Some err, th, c)
    | (None, th, c) => reviewImagesISP cfg rest isps th c
    end
  end.

(** Modelled from the spec: [ReviewISP] (section 4.3; review.go is not
    among the sources).  Step 6, the global allowlist, comes first. *)
Definition ReviewISP (cfg : Config) (images : list string)
    (isps : list ImageSecurityPolicy) (c : MetadataClient)
    (th : MemoryStrategy) : option error * MemoryStrategy * MetadataClient :=
  reviewImagesISP cfg (RemoveGloballyAllowedImages images) isps th c.

End WithCollaborators.

End review.

(** ** package main: the signer command *)

Module signermain.
Import cryptolib.

(** [SignerMode] and its three values. *)
Definition CheckAndSign : string := "check-and-sign".
Definition CheckOnly : string := "check-only".
Definition BypassAndSign : string := "bypass-and-sign".

(** The flags of the command, as [flag.Parse] leaves them. *)
Record Flags : Type := mkFlags {
  mode : string;
  image : string;
  vulnzTimeout : string;
  policyPath : string;
  attestationProject : string;
  overwrite : bool;
  noteName : string;
  pgpPriKeyPath : string;
  pgpPassphrase : string;
  kmsKeyName : string;
  kmsDigestAlg : string
}.

(** How the process ends: [main] returns, [os.Exit] is called with a code,
    or [glog.Fatalf] logs a message and exits. *)
Inductive Termination : Type :=
| Returned
| Exited (code : Z)
| Fatal (message : string).

Section WithBackend.
Context {B F : Type}.
Context `{constants.Names} `{vulnerability.Table}.

(** The client [containeranalysis.New] returns: the methods the signer
    calls, and the two the check calls.  [Vulnerabilities] returns a slice,
    [None] when it is nil, and an error. *)
Record Client : Type := mkClient {
  readWrite : signer.ReadWriteClient B;
  WaitForVulnzAnalysis : string -> Z -> B -> option error * B;
  Vulnerabilities :
    string -> B -> (option (list Vulnerability) * option error) * B
}.

(** What the command reaches outside of this repository and of the files
    at hand: the file system, the parsers, the constructors of clients and
    signers, and the helpers of packages util, resolve and attestation. *)
Record System : Type := mkSystem {
  (** [containeranalysis.New] *)
  newClient : result Client;
  (** [os.Open] *)
  osOpen : string -> result F;
  (** [yaml.NewYAMLToJSONDecoder(file).Decode(&policy)] *)
  decodePolicy : F -> result VulnzSigningPolicy;
  (** [time.ParseDuration] *)
  ParseDuration : string -> result Z;
  (** [resolve.FullyQualifiedImage] *)
  FullyQualifiedImage : string -> bool;
  (** [signer.NewCloudKmsSigner] *)
  NewCloudKmsSigner : string -> string -> result (signer.cSignerT B);
  (** [ioutil.ReadFile] *)
  ReadFile : string -> result bytes;
  (** [attestlib.NewPgpSigner] *)
  NewPgpSigner : bytes -> result (signer.cSignerT B);
  (** [util.CheckNoteName] *)
  CheckNoteName : string -> option error;
  (** [util.GetProjectFromContainerImage] *)
  GetProjectFromContainerImage : string -> string;
  (** [attestation.AtomicContainerPayload] *)
  AtomicContainerPayload : string -> result bytes
}.

(** The [switch] on the mode: [(doCheck, doSign)], or no case. *)
Definition modeSwitch (mode : string) : option (bool * bool) :=
  if decide (mode = CheckAndSign) then Some (true, true)
  else if decide (mode = BypassAndSign) then Some (false, true)
  else if decide (mode = CheckOnly) then Some (true, false)
  else None.

Definition newline : string := String (ascii_of_nat 10) EmptyString.

(** The block under [if doCheck]: [Some] when the process ends in it. *)
Definition checkBlock (sys : System) (flags : Flags) (client : Client)
    (w : signer.World B) : option Termination * signer.World B :=
  match osOpen sys (policyPath flags) with
  | Err err => (Some (Fatal ("Fail to load vulnz signing policy: " +:+ err)), w)
  | Ok policyFile =>
    match decodePolicy sys policyFile with
    | Err err => (Some (Fatal ("Fail to parse policy file: " +:+ err)), w)
    | Ok policy =>
      match ParseDuration sys (vulnzTimeout flags) with
      | Err err => (Some (Fatal ("Fail to parse timeout " +:+ err)), w)
      | Ok timeout =>
        let (err, b) :=
          WaitForVulnzAnalysis client (image flags) timeout (signer.backend w) in
        let w := signer.mkWorld b (signer.calls w) in
        match err with
        | Some err =>
          (Some (Fatal ("Error waiting for vulnerability analysis " +:+ err)), w)
        | None =>
          let '((vulnz, err), b) :=
            Vulnerabilities client (image flags) (signer.backend w) in
          let w := signer.mkWorld b (signer.calls w) in
          match err with
          | Some err => (Some (Fatal ("Found err " +:+ err)), w)
          | None =>
            match vulnz with
            | None => (Some (Fatal "Expected some vulnerabilities. Nil found"), w)
            | Some vulnz =>
              match vulnzsigningpolicy.ValidateVulnzSigningPolicy
                      (FullyQualifiedImage sys) policy (image flags) vulnz with
              | (_, Some err) =>
                (Some (Fatal ("Error when evaluating image " +:+ fmtQ (image flags)
                              +:+ " against policy " +:+ fmtQ (vspName policy))),
                 w)
              | (violations, None) =>
                if negb (length violations =? 0)%nat then (Some (Exited 1), w)
                else (None, w)
              end
            end
          end
        end
      end
    end
  end.

(** The choice of the signing capability: the KMS key when it is named,
    the PGP key file otherwise. *)
Definition chooseSigner (sys : System) (flags : Flags)
  : Termination + signer.cSignerT B :=
  if bool_decide (kmsKeyName flags = "") && bool_decide (pgpPriKeyPath flags = "")
  then inl (Fatal "Neither kms_key_name or private_key is specified")
  else if negb (bool_decide (kmsKeyName flags = "")) then
    if decide (kmsDigestAlg flags = "") then
      inl (Fatal ("kms_digest_alg is unspecified, must be one of "
                  +:+ "SHA256|SHA384|SHA512, and the same as specified by "
                  +:+ "the key version's algorithm"))
    else
      match NewCloudKmsSigner sys (kmsKeyName flags) (kmsDigestAlg flags) with
      | Err err => inl (Fatal ("Creating kms signer failed: " +:+ err +:+ newline))
      | Ok cSigner => inr cSigner
      end
  else
    if negb (bool_decide (pgpPassphrase flags = "")) then
      inl (Fatal ("PGP Passphrase is not yet supported." +:+ newline))
    else
      match ReadFile sys (pgpPriKeyPath flags) with
      | Err err => inl (Fatal ("Fail to read signer key: " +:+ err +:+ newline))
      | Ok signerKey =>
        match NewPgpSigner sys signerKey with
        | Err err => inl (Fatal ("Creating pgp signer failed: " +:+ err +:+ newline))
        | Ok cSigner => inr cSigner
        end
      end.

(** The project the attestation is stored in. *)
Definition projectOf (sys : System) (flags : Flags) : string :=
  if decide (attestationProject flags = "")
  then GetProjectFromContainerImage sys (image flags)
  else attestationProject flags.

(** The block under [if doSign]. *)
Definition signBlock (sys : System) (flags : Flags) (client : Client)
    (w : signer.World B) : Termination * signer.World B :=
  match chooseSigner sys flags with
  | inl fatal => (fatal, w)
  | inr cSigner =>
    match CheckNoteName sys (noteName flags) with
    | Some err => (Fatal ("Note name is invalid " +:+ err), w)
    | None =>
      let r :=
        signer.New (readWrite client) cSigner (noteName flags)
          (projectOf sys flags) (overwrite flags) in
      let (err, w) :=
        signer.SignImage (AtomicContainerPayload sys) r (image flags) w in
      match err with
      | Some err => (Fatal ("Signing image failed " +:+ err), w)
      | None => (Returned, w)
      end
    end
  end.

Definition main (sys : System) (flags : Flags) (w : signer.World B)
  : Termination * signer.World B :=
  match modeSwitch (mode flags) with
  | None => (Fatal ("Unrecognized mode " +:+ mode flags +:+ "."), w)
  | Some (doCheck, doSign) =>
    if decide (image flags = "")
    then (Fatal ("Image url is empty: " +:+ image flags), w)
    else
      match newClient sys with
      | Err err => (Fatal ("Could not initialize the client " +:+ err), w)
      | Ok client =>
        match (if doCheck then checkBlock sys flags client w else (None, w)) with
        | (Some termination, w) => (termination, w)
        | (None, w) =>
          if doSign then signBlock sys flags client w else (Returned, w)
        end
      end
  end.

End WithBackend.

Arguments Client : clear implicits.
Arguments System : clear implicits.

End signermain.

(** ** Fixtures: the mocks of the test files

    The tests run the engine on mocks (an authority table, a metadata
    client holding a fixed list of attestations, an evaluator that knows
    which image is vulnerable).  The signature schemes are replaced by a
    toy one in which a signature is the key followed by the payload, so that
    the rows of the test tables can be run. *)

Module testutil.
Import cryptolib review.

Definition bytesOf (s : string) : bytes := list_byte_of_string s.

(** The reference up to the first [@], and what follows it. *)
Fixpoint splitAtSign (s : string) : option (string * string) :=
  match s with
  | EmptyString => None
  | String c rest =>
    if decide (c = "@"%char) then Some (EmptyString, rest)
    else
      match splitAtSign rest with
      | Some (repo, digest) => Some (String c repo, digest)
      | None => None
      end
  end.

Definition toyNewDigest (image : string) : result Digest :=
  match splitAtSign image with
  | Some (repo, digest) =>
    if String.prefix "sha256:" digest then Ok (mkDigest repo digest)
    else Err "unsupported digest algorithm"
  | None => Err "a digest must contain exactly one @ separator"
  end.

Definition toyVerifyPgp (signature publicKey : bytes) : result bytes :=
  if decide (take (length publicKey) signature = publicKey)
  then Ok (drop (length publicKey) signature)
  else Err "signature does not match the key".

Definition toyCheck (payload : bytes) (imageName imageDigest : string)
  : option error :=
  if decide (payload = bytesOf (imageName +:+ "@" +:+ imageDigest)) then None
  else Some "payload does not describe the image".

#[export] Instance toyExternals : Externals := {|
  ReadArmoredKeyRing keyData :=
    match keyData with
    | [] => Err "no armored data found"
    | _ => Ok [mkEntity keyData]
    end;
  ParseRequestURI keyID := None;
  NewDigest := toyNewDigest;
  verifyPgpImpl := toyVerifyPgp;
  verifyJwtImpl signature publicKey := Err "no token";
  checkAuthenticatedAttestationImpl := toyCheck
|}.

Definition FullyQualifiedImage (image : string) : bool :=
  isOk (toyNewDigest image).

(** The severity names as the policy documents spell them, and the table of
    the generated [Severity] enum. *)
#[export] Instance severityNames : constants.Names := {|
  constants.BlockAll := "BLOCK_ALL";
  constants.AllowAll := "ALLOW_ALL";
  constants.Critical := "CRITICAL"
|}.

#[export] Instance severityTable : vulnerability.Table := {|
  vulnerability.Severity_value :=
    list_to_map
      [ ("SEVERITY_UNSPECIFIED", 0); ("MINIMAL", 1); ("LOW", 2);
        ("MEDIUM", 3); ("HIGH", 4); ("CRITICAL", 5) ]
|}.

Definition QualifiedImage : string := "gcr.io/p/img@sha256:abc".
Definition IntTestImage : string := "gcr.io/p/other@sha256:def".

Definition sec : PGPSigningSecret := mkSecret "sec" (bytesOf "key-one").
Definition sec2 : PGPSigningSecret := mkSecret "sec2" (bytesOf "key-two").

(** The public key of a secret, with the identifier [NewPublicKey] derives. *)
Definition publicKeyOf (s : PGPSigningSecret) : list PublicKey :=
  match NewPublicKey Pgp 0 (PgpKey s) "" with
  | Ok key => [key]
  | Err _ => []
  end.

(** [util.CreateAttestation] *)
Definition CreateAttestation (image : string) (s : PGPSigningSecret)
  : result Attestation :=
  Ok (mkAttestation (sprintfX (PgpKey s)) (PgpKey s ++ bytesOf image) []).

Definition attestationOf (image : string) (s : PGPSigningSecret) : Attestation :=
  mkAttestation (sprintfX (PgpKey s)) (PgpKey s ++ bytesOf image) [].

Definition att1 := attestationOf QualifiedImage sec.
Definition att2 := attestationOf QualifiedImage sec2.
Definition invalidAtt := attestationOf IntTestImage sec.

Definition globalAllowlist : list string :=
  [ "gcr.io/kritis-project/preinstall";
    "us.gcr.io/grafeas/grafeas-server:0.1.0" ].

Definition patternMatches (pattern image : string) : bool :=
  bool_decide (pattern = image).

(** [testutil.MockMetadataClient]: the same attestations for every image
    and authority, uploads never fail. *)
Definition MockMetadataClient (atts : list Attestation) : MetadataClient :=
  mkMetadataClient (fun _ _ => atts) NoteReference (fun _ _ _ => None) [].

(** The authority table of TestReviewGAP. *)
Definition authTest : AttestationAuthority :=
  mkAuthority "test" "projects/test-1/notes/note-1" (publicKeyOf sec).

Definition authTest2 : AttestationAuthority :=
  mkAuthority "test2" "projects/test-1/notes/note-2" (publicKeyOf sec2).

Definition authMock (ns name : string) : result AttestationAuthority :=
  if decide (name = "test") then Ok authTest
  else if decide (name = "test2") then Ok authTest2
  else Err ("no such attestation authority: " +:+ name).

Definition sMock (ns name : string) : result PGPSigningSecret :=
  if decide (name = "sec") then Ok sec
  else if decide (name = "sec2") then Ok sec2
  else Err ("no such secret for " +:+ name).

Definition gapConfig : Config :=
  mkConfig (fun _ _ _ => ([], None)) sMock authMock true.

Definition oneGAP : list GenericAttestationPolicy :=
  [mkGAP "foo" [mkPattern "allowed_image_name"] ["test"]].
Definition twoGAPs : list GenericAttestationPolicy :=
  oneGAP ++ [mkGAP "bar" [] ["test2"]].
Definition gapWithTwoAAs : list GenericAttestationPolicy :=
  [mkGAP "foo" [] ["test"; "test2"]].
Definition gapWithoutAA : list GenericAttestationPolicy :=
  [mkGAP "foo" [mkPattern "allowed_image_name"] []].

(** One row of TestReviewGAP: whether the review returns an error, and
    [th.Attestations[image]] afterwards. *)
Definition runGAP (image : string) (policies : list GenericAttestationPolicy)
    (atts : list Attestation) : bool * bool :=
  let (err, th) :=
    ReviewGAP globalAllowlist patternMatches gapConfig [image] policies
      (MockMetadataClient atts) emptyStrategy in
  (bool_decide (err <> None), mapGetBool (Attestations th) image).

(** The fixtures of TestReviewISP. *)
Definition vulnImage : string := QualifiedImage.
Definition noVulnImage : string := IntTestImage.
Definition unQualifiedImage : string := "image:tag".

Definition ispAuthMock (ns name : string) : result AttestationAuthority :=
  Ok (mkAuthority name "projects/test-1/notes/note-1" (publicKeyOf sec)).

Definition mockValidate (isp : ImageSecurityPolicy) (image : string)
    (c : MetadataClient) : list Violation * option error :=
  if decide (image = vulnImage) then
    ([mkViolation (mkVulnerability "foo" false "") FixUnavailableViolation
        (OtherReason "")], None)
  else if decide (image = unQualifiedImage) then
    ([mkViolation zeroVulnerability UnqualifiedImageViolation
        (UnqualifiedImageReason image)], None)
  else ([], None).

Definition ispConfig (isWebhook : bool) : Config :=
  mkConfig mockValidate (fun _ _ => Ok sec) ispAuthMock isWebhook.

Definition isps : list ImageSecurityPolicy :=
  [mkISP "foo" "test" "test" (mkRequirements "" "" [])].

(** One row of TestReviewISP: whether the review returns an error,
    [len(th.Violations)], [th.Attestations[image]] and whether an
    occurrence was uploaded. *)
Definition runISP (image : string) (isWebhook : bool) (atts : list Attestation)
  : bool * nat * bool * bool :=
  let '(err, th, c) :=
    ReviewISP globalAllowlist CreateAttestation (ispConfig isWebhook) [image]
      isps (MockMetadataClient atts) emptyStrategy in
  (bool_decide (err <> None), size (Violations th),
   mapGetBool (Attestations th) image, bool_decide (Occ c <> [])).

(** A metadata store for the signer: the occurrences it holds.  Reading
    and uploading never fail; deleting fails when [deleteFails] is set. *)
Definition storeClient (deleteFails : bool)
  : signer.ReadWriteClient (list signer.Occurrence) :=
  signer.mkClient
    (fun image auth store =>
       ((map signer.occAttestation
           (filter (fun occ => signer.occImage occ = image) store), None), store))
    (fun image auth store =>
       if deleteFails then (Some "permission denied", store)
       else (None, filter (fun occ => signer.occImage occ <> image) store))
    (fun auth store => (Ok (signer.mkNote (NoteReference auth)), store))
    (fun note image att project sigType store =>
       let occ := signer.mkOccurrence note image att project sigType in
       (Ok occ, store ++ [occ])).

Definition storeSigner : signer.cSignerT (list signer.Occurrence) :=
  signer.mkCSigner
    (fun payload store => (Ok (mkAttestation "KEY" payload payload), store)).

Definition AtomicContainerPayload (image : string) : result bytes :=
  Ok (bytesOf image).

Definition mockSigner (deleteFails overwrite : bool)
  : signer.Signer (list signer.Occurrence) :=
  signer.New (storeClient deleteFails) storeSigner "projects/p/notes/n" "p"
    overwrite.

(** A store in which [QualifiedImage] is already attested. *)
Definition signedStore : list signer.Occurrence :=
  [signer.mkOccurrence "projects/p/notes/n" QualifiedImage att1 "p"
     signer.GenericSignatureType].

(** A metadata store that cannot be read. *)
Definition unreadableClient : signer.ReadWriteClient (list signer.Occurrence) :=
  signer.mkClient
    (fun image auth store => (([], Some "unavailable"), store))
    (signer.DeleteAttestationOccurrence (storeClient false))
    (signer.GetOrCreateAttestationNote (storeClient false))
    (signer.UploadAttestationOccurrence (storeClient false)).

Definition unreadableSigner (overwrite : bool)
  : signer.Signer (list signer.Occurrence) :=
  signer.New unreadableClient storeSigner "projects/p/notes/n" "p" overwrite.

(** A system for the signer command: a store client whose scan finds one
    fixable critical vulnerability in [QualifiedImage] and none elsewhere, a
    policy file with a fixable threshold of HIGH, signers that sign as
    [storeSigner]. *)
Definition scanOf (image : string) : list Vulnerability :=
  if decide (image = QualifiedImage)
  then [mkVulnerability "CRITICAL" true "CVE-1"]
  else [].

Definition testClient : signermain.Client (list signer.Occurrence) :=
  signermain.mkClient (storeClient false)
    (fun image timeout store => (None, store))
    (fun image store => ((Some (scanOf image), None), store)).

Definition testSystem : signermain.System (list signer.Occurrence) string :=
  signermain.mkSystem (Ok testClient)
    (fun path => if decide (path = "policy.yaml") then Ok "policy"
                 else Err "no such file")
    (fun file => Ok (mkVulnzSigningPolicy "p" (mkRequirements "HIGH" "" [])))
    (fun text => if decide (text = "5m") then Ok 300 else Err "invalid duration")
    FullyQualifiedImage
    (fun name alg => Ok storeSigner)
    (fun path => Ok (bytesOf "key"))
    (fun key => Ok storeSigner)
    (fun name => None)
    (fun image => "p")
    AtomicContainerPayload.

Definition testFlags (mode image : string) : signermain.Flags :=
  signermain.mkFlags mode image "5m" "policy.yaml" "" false "projects/p/notes/n"
    "private.key" "" "" "".
End testutil.

(** ** Vocabulary of the properties *)

Module vocabulary.
Import vulnzsigningpolicy.

Section WithSeverities.
Context `{constants.Names} `{vulnerability.Table}.

(** The thresholds a policy resolves to, defaults applied. *)
Definition maxFixableSeverity (vsp : VulnzSigningPolicy) : string :=
  let maxSev := MaximumFixableSeverity (vspRequirements vsp) in
  if decide (maxSev = "") then constants.Critical else maxSev.

Definition maxUnfixableSeverity (vsp : VulnzSigningPolicy) : string :=
  let maxNoFixSev := MaximumUnfixableSeverity (vspRequirements vsp) in
  if decide (maxNoFixSev = "") then constants.AllowAll else maxNoFixSev.

(** The threshold that applies to a vulnerability. *)
Definition applicableThreshold (vsp : VulnzSigningPolicy) (v : Vulnerability)
  : string :=
  if HasFixAvailable v then maxFixableSeverity vsp else maxUnfixableSeverity vsp.

(** The recognized severity vocabulary, and the two sentinel thresholds. *)
Definition recognized (severity : string) : Prop :=
  is_Some (vulnerability.Severity_value !! severity).

Definition sentinel (threshold : string) : Prop :=
  threshold = constants.BlockAll \/ threshold = constants.AllowAll.

End WithSeverities.

(** The vulnerability is looked at by the loop: its CVE is not allowlisted. *)
Definition allowlisted (vsp : VulnzSigningPolicy) (v : Vulnerability) : Prop :=
  mapGetBool (makeCVEAllowlistMap vsp) (CVE v) = true.

(** The violation the evaluator returns for an unqualified image. *)
Definition unqualifiedViolation (image : string) : Violation :=
  mkViolation zeroVulnerability UnqualifiedImageViolation
    (UnqualifiedImageReason image).

(** Counting the calls of a kind in a log of the signer. *)
Definition isDelete (c : signer.Call) : bool :=
  match c with signer.CallDeleteAttestationOccurrence _ _ => true | _ => false end.



Definition countCalls (kind : signer.Call -> bool) (log : list signer.Call) : nat :=
  length (List.filter kind log).

(** Reading upper-case hexadecimal back: the digits [0-9A-F] only, two per
    byte. *)
Definition upperHexValue (c : ascii) : option N :=
  let n := N_of_ascii c in
  if (48 <=? n)%N && (n <=? 57)%N then Some (n - 48)%N
  else if (65 <=? n)%N && (n <=? 70)%N then Some (n - 55)%N
  else None.

Fixpoint parseUpperHex (s : string) : option (list Byte.byte) :=
  match s with
  | EmptyString => Some []
  | String hi (String lo rest) =>
    match upperHexValue hi, upperHexValue lo, parseUpperHex rest with
    | Some h, Some l, Some b =>
      match Byte.of_N (16 * h + l) with
      | Some x => Some (x :: b)
      | None => None
      end
    | _, _, _ => None
    end
  | String _ EmptyString => None
  end.

(** The attestation verifies for the image against the keys of the
    authority: the verifier is built and accepts it. *)
Definition verifies `{cryptolib.Externals} (image : string)
    (auth : AttestationAuthority) (att : cryptolib.Attestation) : Prop :=
  exists v,
    cryptolib.NewVerifier image (authPublicKeys auth) = Ok v /\
    cryptolib.VerifyAttestation v att = None.

(** The authority has at least one verifying attestation among those the
    client returns for the image. *)
Definition attestedBy `{cryptolib.Externals} (c : review.MetadataClient)
    (image : string) (auth : AttestationAuthority) : Prop :=
  Exists (verifies image auth) (review.Atts c image auth).

(** Every authority of the list is satisfied. *)
Definition fullQuorum `{cryptolib.Externals} (c : review.MetadataClient)
    (image : string) (auths : list AttestationAuthority) : Prop :=
  Forall (attestedBy c image) auths.

End vocabulary.

(** ** Vocabulary of the further properties *)

Module terms.
Import vulnzsigningpolicy vocabulary.

Section WithSeverities.
Context `{constants.Names} `{vulnerability.Table}.

(** The comparison of the vulnerability with its threshold fails it: its
    CVE is not allowlisted and the severity is over the threshold. *)
Definition violates (vsp : VulnzSigningPolicy) (v : Vulnerability) : bool :=
  negb (mapGetBool (makeCVEAllowlistMap vsp) (CVE v)) &&
  bool_decide
    (severityWithinThreshold (applicableThreshold vsp v) (Severity v) = (false, None)).

(** The vulnerability is skipped or compared without error. *)
Definition comparesCleanly (vsp : VulnzSigningPolicy) (v : Vulnerability) : Prop :=
  allowlisted vsp v \/
  (severityWithinThreshold (applicableThreshold vsp v) (Severity v)).2 = None.

(** Every severity the second threshold rejects, the first rejects too. *)
Definition noStricter (threshold threshold' : string) : Prop :=
  forall severity,
    severityWithinThreshold threshold' severity = (false, None) ->
    severityWithinThreshold threshold severity = (false, None).
End WithSeverities.

(** The violation appended for a vulnerability over its threshold. *)
Definition violationOf (vsp : VulnzSigningPolicy) (image : string)
    (v : Vulnerability) : Violation :=
  mkViolation v
    (if HasFixAvailable v then SeverityViolation else FixUnavailableViolation)
    (if HasFixAvailable v then FixableSeverityViolationReason image v vsp
     else UnfixableSeverityViolationReason image v vsp).

(** The signer with its overwrite flag set as given, all else equal. *)
Definition withOverwrite {B : Type} (flag : bool) (s : signer.Signer B)
  : signer.Signer B :=
  signer.mkSigner
    (signer.mkConfig (signer.cSigner (signer.config_ s))
       (signer.authority (signer.config_ s)) (signer.project (signer.config_ s))
       flag)
    (signer.client s).

(** The phases of [SignImage], as the prefixes of the errors it returns. *)
Definition checkingFailed : string := "checking existing attestation status failed: ".


(** The key a key set holds for an ID: the last one of the set that carries
    it. *)
Definition keyFor (keys : list cryptolib.PublicKey) (id : string)
  : option cryptolib.PublicKey :=
  last (List.filter (fun key => bool_decide (cryptolib.ID key = id)) keys).

(** The string has a colon somewhere. *)
Definition hasColon (s : string) : Prop :=
  exists before after, s = before +:+ String ":"%char after.

(** The check of the command got as far as the evaluation: the client was
    built, the policy file opened and decoded into [policy], the timeout
    parsed, the analysis waited for, and the scan of the image returned
    [vulnz]. *)
Definition evaluated {B F : Type} (sys : signermain.System B F)
    (flags : signermain.Flags) (w : signer.World B)
    (policy : VulnzSigningPolicy) (vulnz : list Vulnerability) : Prop :=
  exists client file timeout b1 b2,
    signermain.newClient sys = Ok client /\
    signermain.osOpen sys (signermain.policyPath flags) = Ok file /\
    signermain.decodePolicy sys file = Ok policy /\
    signermain.ParseDuration sys (signermain.vulnzTimeout flags) = Ok timeout /\
    signermain.WaitForVulnzAnalysis client (signermain.image flags) timeout
      (signer.backend w) = (None, b1) /\
    signermain.Vulnerabilities client (signermain.image flags) b1
    = ((Some vulnz, None), b2).

(** The mode runs the check. *)
Definition checks (flags : signermain.Flags) : Prop :=
  signermain.mode flags = signermain.CheckAndSign \/
  signermain.mode flags = signermain.CheckOnly.

(** Two runs of the command are given the same things to check: the flags
    the check reads, the file system and the parsers, and a client that
    waits and scans alike (or the same failure to build one). *)
Definition sameCheck {B F : Type} (sys sys' : signermain.System B F)
    (flags flags' : signermain.Flags) : Prop :=
  signermain.mode flags' = signermain.mode flags /\
  signermain.image flags' = signermain.image flags /\
  signermain.vulnzTimeout flags' = signermain.vulnzTimeout flags /\
  signermain.policyPath flags' = signermain.policyPath flags /\
  (forall path, signermain.osOpen sys' path = signermain.osOpen sys path) /\
  (forall file, signermain.decodePolicy sys' file = signermain.decodePolicy sys file) /\
  (forall text, signermain.ParseDuration sys' text = signermain.ParseDuration sys text) /\
  (forall image,
      signermain.FullyQualifiedImage sys' image
      = signermain.FullyQualifiedImage sys image) /\
  match signermain.newClient sys, signermain.newClient sys' with
  | Ok client, Ok client' =>
    (forall image timeout b,
        signermain.WaitForVulnzAnalysis client' image timeout b
        = signermain.WaitForVulnzAnalysis client image timeout b) /\
    (forall image b,
        signermain.Vulnerabilities client' image b
        = signermain.Vulnerabilities client image b)
  | Err err, Err err' => err' = err
  | _, _ => False
  end.

(** Two runs of the command are given the same things to sign with: the
    flags the signing reads, the constructors of signers, the helpers, and
    a client that reads and writes alike (or the same failure to build
    one). *)
Definition sameSign {B F : Type} (sys sys' : signermain.System B F)
    (flags flags' : signermain.Flags) : Prop :=
  signermain.mode flags' = signermain.mode flags /\
  signermain.image flags' = signermain.image flags /\
  signermain.attestationProject flags' = signermain.attestationProject flags /\
  signermain.overwrite flags' = signermain.overwrite flags /\
  signermain.noteName flags' = signermain.noteName flags /\
  signermain.pgpPriKeyPath flags' = signermain.pgpPriKeyPath flags /\
  signermain.pgpPassphrase flags' = signermain.pgpPassphrase flags /\
  signermain.kmsKeyName flags' = signermain.kmsKeyName flags /\
  signermain.kmsDigestAlg flags' = signermain.kmsDigestAlg flags /\
  (forall name alg,
      signermain.NewCloudKmsSigner sys' name alg
      = signermain.NewCloudKmsSigner sys name alg) /\
  (forall path, signermain.ReadFile sys' path = signermain.ReadFile sys path) /\
  (forall key, signermain.NewPgpSigner sys' key = signermain.NewPgpSigner sys key) /\
  (forall name, signermain.CheckNoteName sys' name = signermain.CheckNoteName sys name) /\
  (forall image,
      signermain.GetProjectFromContainerImage sys' image
      = signermain.GetProjectFromContainerImage sys image) /\
  (forall image,
      signermain.AtomicContainerPayload sys' image
      = signermain.AtomicContainerPayload sys image) /\
  match signermain.newClient sys, signermain.newClient sys' with
  | Ok client, Ok client' =>
    signermain.readWrite client' = signermain.readWrite client
  | Err err, Err err' => err' = err
  | _, _ => False
  end.

(** The flags with another PGP key path and passphrase. *)
Definition withPgpFlags (path passphrase : string) (flags : signermain.Flags)
  : signermain.Flags :=
  signermain.mkFlags (signermain.mode flags) (signermain.image flags)
    (signermain.vulnzTimeout flags) (signermain.policyPath flags)
    (signermain.attestationProject flags) (signermain.overwrite flags)
    (signermain.noteName flags) path passphrase (signermain.kmsKeyName flags)
    (signermain.kmsDigestAlg flags).

(** The system with another file reader and another PGP signer
    constructor. *)
Definition withPgpSystem {B F : Type} (readFile : string -> result bytes)
    (newPgpSigner : bytes -> result (signer.cSignerT B))
    (sys : signermain.System B F) : signermain.System B F :=
  signermain.mkSystem (signermain.newClient sys) (signermain.osOpen sys)
    (signermain.decodePolicy sys) (signermain.ParseDuration sys)
    (signermain.FullyQualifiedImage sys) (signermain.NewCloudKmsSigner sys)
    readFile newPgpSigner (signermain.CheckNoteName sys)
    (signermain.GetProjectFromContainerImage sys)
    (signermain.AtomicContainerPayload sys).
End terms.

(** * Properties *)

(** ** The rows of the test tables *)

Module rows.
Import cryptolib review testutil.

(** TestReviewGAP, row by row: (shouldErr, hasRequiredAtts). *)
Example gap_valid_image_with_attestation :
  runGAP QualifiedImage oneGAP [att1] = (false, true).
Proof. vm_compute. reflexivity. Qed.

Example gap_image_without_attestation :
  runGAP QualifiedImage oneGAP [] = (true, false).
Proof. vm_compute. reflexivity. Qed.

Example gap_without_attestor_should_error :
  runGAP QualifiedImage gapWithoutAA [] = (true, false).
Proof. vm_compute. reflexivity. Qed.

Example gap_without_attestor_should_error_on_allowlisted_image :
  runGAP "allowed_image_name" gapWithoutAA [] = (true, false).
Proof. vm_compute. reflexivity. Qed.

Example gap_allowlisted_image :
  runGAP "allowed_image_name" oneGAP [] = (false, false).
Proof. vm_compute. reflexivity. Qed.

Example gap_image_allowlisted_in_1_policy :
  runGAP "allowed_image_name" twoGAPs [] = (false, false).
Proof. vm_compute. reflexivity. Qed.

Example gap_image_without_policies :
  runGAP QualifiedImage [] [] = (false, false).
Proof. vm_compute. reflexivity. Qed.

Example gap_image_with_invalid_attestation :
  runGAP QualifiedImage oneGAP [invalidAtt] = (true, false).
Proof. vm_compute. reflexivity. Qed.

Example gap_image_complies_with_one_policy_out_of_two :
  runGAP QualifiedImage twoGAPs [att1] = (false, true).
Proof. vm_compute. reflexivity. Qed.

Example gap_image_in_global_allowlist :
  runGAP "us.gcr.io/grafeas/grafeas-server:0.1.0" twoGAPs [] = (false, false).
Proof. vm_compute. reflexivity. Qed.

Example gap_image_attested_by_one_attestor_out_of_two :
  runGAP QualifiedImage gapWithTwoAAs [att1] = (true, false).
Proof. vm_compute. reflexivity. Qed.

Example gap_image_attested_by_two_attestors_out_of_two :
  runGAP QualifiedImage gapWithTwoAAs [att1; att2] = (false, true).
Proof. vm_compute. reflexivity. Qed.

(** TestReviewISP, row by row:
    (shouldErr, handledViolations, isAttested, shouldAttestImage). *)
Example isp_vulnz_w_attestation_for_webhook :
  runISP vulnImage true [attestationOf vulnImage sec] = (false, 0%nat, true, false).
Proof. vm_compute. reflexivity. Qed.

Example isp_vulnz_wo_attestation_for_webhook :
  runISP vulnImage true [] = (true, 1%nat, false, false).
Proof. vm_compute. reflexivity. Qed.

Example isp_no_vulnz_wo_attestation_for_webhook :
  runISP noVulnImage true [] = (false, 0%nat, false, true).
Proof. vm_compute. reflexivity. Qed.

Example isp_vulnz_w_attestation_for_cron :
  runISP vulnImage false [attestationOf vulnImage sec] = (true, 1%nat, true, false).
Proof. vm_compute. reflexivity. Qed.

Example isp_vulnz_wo_attestation_for_cron :
  runISP vulnImage false [] = (true, 1%nat, false, false).
Proof. vm_compute. reflexivity. Qed.

Example isp_no_vulnz_wo_attestation_for_cron :
  runISP noVulnImage false [] = (false, 0%nat, false, false).
Proof. vm_compute. reflexivity. Qed.

Example isp_no_vulnz_w_attestation_for_cron :
  runISP noVulnImage false [attestationOf noVulnImage sec]
  = (false, 0%nat, true, false).
Proof. vm_compute. reflexivity. Qed.

Example isp_unqualified_image_for_cron :
  runISP unQualifiedImage false [] = (true, 1%nat, false, false).
Proof. vm_compute. reflexivity. Qed.

Example isp_unqualified_image_for_webhook :
  runISP unQualifiedImage true [] = (true, 1%nat, false, false).
Proof. vm_compute. reflexivity. Qed.

Example isp_review_image_in_global_allowlist :
  runISP "gcr.io/kritis-project/preinstall" true [] = (false, 0%nat, false, false).
Proof. vm_compute. reflexivity. Qed.

(** TestGetAttestationAuthoritiesForGAP and
    TestGetAttestationAuthoritiesForISP. *)
Example authorities_for_gap_correct_list :
  isOk (getAttestationAuthoritiesForGAP gapConfig (mkGAP "" [] ["test"; "test2"]))
  = true.
Proof. reflexivity. Qed.

Example authorities_for_gap_one_incorrect :
  isOk (getAttestationAuthoritiesForGAP gapConfig (mkGAP "" [] ["test"; "err"]))
  = false.
Proof. reflexivity. Qed.

Example authorities_for_gap_empty_list :
  getAttestationAuthoritiesForGAP gapConfig (mkGAP "" [] []) = Ok [].
Proof. reflexivity. Qed.

Example authority_for_isp_incorrect :
  isOk (getAttestationAuthorityForISP gapConfig
          (mkISP "" "err" "test" (mkRequirements "" "" []))) = false.
Proof. reflexivity. Qed.

Example authority_for_isp_empty_name :
  getAttestationAuthorityForISP gapConfig
    (mkISP "" "" "test" (mkRequirements "" "" [])) = Ok None.
Proof. reflexivity. Qed.
End rows.

(** ** The vulnerability policy evaluator *)

Module evaluator.
Import vulnzsigningpolicy vocabulary.

Section WithSeverities.
Context `{constants.Names} `{vulnerability.Table}.

Lemma severityWithinThreshold_unrecognized (maxSeverity severity : string) :
  ~ sentinel maxSeverity ->
  ~ recognized maxSeverity \/ ~ recognized severity ->
  exists err, severityWithinThreshold maxSeverity severity = (false, Some err).
Proof.
  intros Hs Hr. unfold severityWithinThreshold, sentinel, recognized in *.
  destruct (decide (maxSeverity = constants.BlockAll)) as [->|_]; [tauto|].
  destruct (decide (maxSeverity = constants.AllowAll)) as [->|_]; [tauto|].
  destruct (vulnerability.Severity_value !! maxSeverity) as [maxRank|] eqn:Hmax;
    [|eauto].
  destruct (vulnerability.Severity_value !! severity) as [rank|] eqn:Hsev;
    [|eauto].
  destruct Hr as [Hr|Hr]; exfalso; apply Hr; eauto.
Qed.

(** Unfolding of the evaluator on a qualified image. *)
Lemma Validate_qualified (fq : string -> bool) vsp image vulnz :
  fq image = true ->
  ValidateVulnzSigningPolicy fq vsp image vulnz
  = rangeVulnz vsp image (maxFixableSeverity vsp) (maxUnfixableSeverity vsp)
      (makeCVEAllowlistMap vsp) vulnz [].
Proof.
  intros Hq. unfold ValidateVulnzSigningPolicy. rewrite Hq. simpl.
  destruct vulnz; reflexivity.
Qed.

Section Loop.
Variables (vsp : VulnzSigningPolicy) (image : string).

Let loop := rangeVulnz vsp image (maxFixableSeverity vsp)
              (maxUnfixableSeverity vsp) (makeCVEAllowlistMap vsp).

(** One iteration, by the cases of the loop body. *)
Lemma loop_cons v rest acc :
  loop (v :: rest) acc =
  if mapGetBool (makeCVEAllowlistMap vsp) (CVE v) then loop rest acc
  else
    match severityWithinThreshold (applicableThreshold vsp v) (Severity v) with
    | (_, Some err) => (acc, Some err)
    | (true, None) => loop rest acc
    | (false, None) =>
      loop rest
        (acc ++ [mkViolation v
                   (if HasFixAvailable v then SeverityViolation
                    else FixUnavailableViolation)
                   (if HasFixAvailable v
                    then FixableSeverityViolationReason image v vsp
                    else UnfixableSeverityViolationReason image v vsp)])
    end.
Proof.
  unfold loop, applicableThreshold. simpl.
  destruct (mapGetBool _ _); [reflexivity|].
  destruct (HasFixAvailable v); simpl; reflexivity.
Qed.

Lemma loop_error_of_elem v vulnz acc :
  v ∈ vulnz ->
  ~ allowlisted vsp v ->
  (exists err,
     severityWithinThreshold (applicableThreshold vsp v) (Severity v)
     = (false, Some err)) ->
  exists err, (loop vulnz acc).2 = Some err.
Proof.
  intros Hin Hallow [err Herr]. revert acc.
  induction vulnz as [|x rest IH]; intros acc.
  - inversion Hin.
  - rewrite loop_cons.
    apply elem_of_cons in Hin as [<-|Hrest].
    + unfold allowlisted in Hallow.
      destruct (mapGetBool _ _); [congruence|].
      rewrite Herr. eauto.
    + destruct (mapGetBool _ _); [apply IH, Hrest|].
      destruct (severityWithinThreshold (applicableThreshold vsp x) (Severity x))
        as [[|] [e|]]; simpl;
        [eauto|apply IH, Hrest|eauto|apply IH, Hrest].
Qed.

(** The violations of a run extend the accumulator, and each new one is
    about a vulnerability the threshold comparison rejected without
    error. *)
Lemma loop_violations vulnz acc :
  exists new,
    (loop vulnz acc).1 = acc ++ new /\
    Forall (fun viol =>
              vulnerability_ viol ∈ vulnz /\
              severityWithinThreshold
                (applicableThreshold vsp (vulnerability_ viol))
                (Severity (vulnerability_ viol)) = (false, None)) new.
Proof.
  revert acc. induction vulnz as [|x rest IH]; intros acc.
  - exists []. simpl. rewrite app_nil_r. split; [reflexivity|constructor].
  - rewrite loop_cons.
    assert (forall acc', exists new,
               (loop rest acc').1 = acc' ++ new /\
               Forall (fun viol =>
                 vulnerability_ viol ∈ x :: rest /\
                 severityWithinThreshold
                   (applicableThreshold vsp (vulnerability_ viol))
                   (Severity (vulnerability_ viol)) = (false, None)) new)
      as IH'.
    { intros acc'. destruct (IH acc') as (new & Hnew & Hall).
      exists new. split; [exact Hnew|].
      eapply Forall_impl; [exact Hall|].
      intros viol [Hin Hsev]. split; [right; exact Hin|exact Hsev]. }
    destruct (mapGetBool _ _); [apply IH'|].
    destruct (severityWithinThreshold _ _) as [[|] [e|]] eqn:Hsev; simpl.
    + exists []. rewrite app_nil_r. split; [reflexivity|constructor].
    + apply IH'.
    + exists []. rewrite app_nil_r. split; [reflexivity|constructor].
    + destruct (IH' (acc ++ [mkViolation x
                   (if HasFixAvailable x then SeverityViolation
                    else FixUnavailableViolation)
                   (if HasFixAvailable x
                    then FixableSeverityViolationReason image x vsp
                    else UnfixableSeverityViolationReason image x vsp)]))
        as (new & Hnew & Hall).
      eexists (_ :: new). split.
      * rewrite Hnew, <- app_assoc. reflexivity.
      * constructor; [|exact Hall]. simpl. split; [left|exact Hsev].
Qed.

(** A run that ends in an error stopped at some vulnerability; the
    violations it returns are those of the run over what came before. *)
Lemma loop_error_prefix vulnz acc violations err :
  loop vulnz acc = (violations, Some err) ->
  exists pre v post,
    vulnz = pre ++ v :: post /\
    loop pre acc = (violations, None) /\
    ~ allowlisted vsp v /\
    (severityWithinThreshold (applicableThreshold vsp v) (Severity v)).2
    = Some err.
Proof.
  revert acc. induction vulnz as [|x rest IH]; intros acc Hrun.
  - discriminate.
  - rewrite loop_cons in Hrun.
    assert (forall acc',
               loop (x :: rest) acc = loop rest acc' ->
               loop [x] acc = (acc', None) ->
               exists pre v post,
                 x :: rest = pre ++ v :: post /\
                 loop pre acc = (violations, None) /\
                 ~ allowlisted vsp v /\
                 (severityWithinThreshold (applicableThreshold vsp v)
                    (Severity v)).2 = Some err) as Hstep.
    { intros acc' Hcons Hone.
      rewrite loop_cons in Hcons. rewrite Hcons in Hrun.
      destruct (IH acc' Hrun) as (pre & v & post & -> & Hpre & Hv).
      exists (x :: pre), v, post. split; [reflexivity|]. split; [|exact Hv].
      rewrite loop_cons. rewrite loop_cons in Hone.
      destruct (mapGetBool _ _).
      - simpl in Hone. injection Hone as <-. exact Hpre.
      - destruct (severityWithinThreshold _ _) as [[|] [e|]];
          simpl in Hone; try discriminate;
          injection Hone as <-; exact Hpre. }
    destruct (mapGetBool (makeCVEAllowlistMap vsp) (CVE x)) eqn:Hallow.
    + apply (Hstep acc); [rewrite loop_cons, Hallow; reflexivity|].
      rewrite loop_cons, Hallow. reflexivity.
    + destruct (severityWithinThreshold _ _) as [[|] [e|]] eqn:Hsev.
      * injection Hrun as <- <-. exists [], x, rest.
        split; [reflexivity|]. split; [reflexivity|].
        unfold allowlisted. rewrite Hallow, Hsev. split; [congruence|reflexivity].
      * apply (Hstep acc); [rewrite loop_cons, Hallow, Hsev; reflexivity|].
        rewrite loop_cons, Hallow, Hsev. reflexivity.
      * injection Hrun as <- <-. exists [], x, rest.
        split; [reflexivity|]. split; [reflexivity|].
        unfold allowlisted. rewrite Hallow, Hsev. split; [congruence|reflexivity].
      * eapply Hstep; [rewrite loop_cons, Hallow, Hsev; reflexivity|].
        rewrite loop_cons, Hallow, Hsev. reflexivity.
Qed.
End Loop.

(** C8: for every image reference that is not fully qualified and every
    list of vulnerabilities, the evaluator returns exactly one violation,
    of type UnqualifiedImage, and a nil error; the result depends neither
    on the policy nor on the vulnerabilities, no severity is compared
    with a threshold. *)
Theorem unqualified_image_short_circuit (fq : string -> bool)
    (vsp : VulnzSigningPolicy) (image : string) (vulnz : list Vulnerability) :
  fq image = false ->
  ValidateVulnzSigningPolicy fq vsp image vulnz
  = ([unqualifiedViolation image], None) /\
  vType (unqualifiedViolation image) = UnqualifiedImageViolation /\
  forall vsp' vulnz',
    ValidateVulnzSigningPolicy fq vsp' image vulnz'
    = ValidateVulnzSigningPolicy fq vsp image vulnz.
Proof.
  intros Hq. unfold ValidateVulnzSigningPolicy. rewrite Hq. simpl.
  repeat split; reflexivity.
Qed.


(** C6: on a qualified image, a vulnerability whose CVE is not allowlisted
    and whose applicable threshold is not a sentinel makes the evaluation
    return an error as soon as its severity or that threshold is outside
    the recognized vocabulary; no violation is emitted for it. *)
Theorem unrecognized_severity_is_error (fq : string -> bool)
    (vsp : VulnzSigningPolicy) (image : string) (vulnz : list Vulnerability)
    (v : Vulnerability) :
  fq image = true ->
  v ∈ vulnz ->
  ~ allowlisted vsp v ->
  ~ sentinel (applicableThreshold vsp v) ->
  ~ recognized (applicableThreshold vsp v) \/ ~ recognized (Severity v) ->
  (exists err, (ValidateVulnzSigningPolicy fq vsp image vulnz).2 = Some err) /\
  Forall (fun viol => vulnerability_ viol <> v)
    (ValidateVulnzSigningPolicy fq vsp image vulnz).1.
Proof.
  intros Hq Hin Hallow Hsent Hrec.
  destruct (severityWithinThreshold_unrecognized _ _ Hsent Hrec) as [err Herr].
  rewrite (Validate_qualified fq vsp image vulnz Hq). split.
  - eapply loop_error_of_elem; eauto.
  - destruct (loop_violations vsp image vulnz []) as (new & Hnew & Hall).
    rewrite Hnew. simpl. eapply Forall_impl; [exact Hall|].
    intros viol [_ Hsev] Heq. rewrite Heq, Herr in Hsev. discriminate.
Qed.


(** C10: when the evaluator returns an error, the violations returned with
    it are those accumulated before the vulnerability whose comparison
    failed: the list the evaluator returns, without error, on the
    vulnerabilities that precede it. *)
Theorem violations_partial_on_error (fq : string -> bool)
    (vsp : VulnzSigningPolicy) (image : string) (vulnz : list Vulnerability)
    (violations : list Violation) (err : error) :
  ValidateVulnzSigningPolicy fq vsp image vulnz = (violations, Some err) ->
  exists pre v post,
    vulnz = pre ++ v :: post /\
    ValidateVulnzSigningPolicy fq vsp image pre = (violations, None) /\
    ~ allowlisted vsp v /\
    (severityWithinThreshold (applicableThreshold vsp v) (Severity v)).2
    = Some err.
Proof.
  intros Hrun.
  destruct (fq image) eqn:Hq.
  - rewrite (Validate_qualified fq vsp image vulnz Hq) in Hrun.
    destruct (loop_error_prefix vsp image vulnz [] violations err Hrun)
      as (pre & v & post & Hsplit & Hpre & Hv).
    exists pre, v, post. split; [exact Hsplit|]. split; [|exact Hv].
    rewrite (Validate_qualified fq vsp image pre Hq). exact Hpre.
  - unfold ValidateVulnzSigningPolicy in Hrun. rewrite Hq in Hrun.
    simpl in Hrun. discriminate.
Qed.

End WithSeverities.

(** The concrete runs that follow use the severity names of the policy
    documents. *)
#[local] Existing Instance testutil.severityNames.
#[local] Existing Instance testutil.severityTable.

(** An unqualified image with a vulnerability whose severity the
    thresholds could not even be compared with. *)
Lemma unqualified_image_short_circuit_witness :
  testutil.FullyQualifiedImage "image:tag" = false /\
  ValidateVulnzSigningPolicy testutil.FullyQualifiedImage
    (mkVulnzSigningPolicy "p" (mkRequirements "HIGH" "" []))
    "image:tag" [mkVulnerability "bogus" true "CVE-1"]
  = ([unqualifiedViolation "image:tag"], None).
Proof.
  split; [reflexivity|].
  apply (unqualified_image_short_circuit testutil.FullyQualifiedImage
           (mkVulnzSigningPolicy "p" (mkRequirements "HIGH" "" []))
           "image:tag" [mkVulnerability "bogus" true "CVE-1"]).
  reflexivity.
Defined.

(** A vulnerability of unknown severity after one the threshold admits. *)
Lemma unrecognized_severity_is_error_witness :
  (exists err,
      (ValidateVulnzSigningPolicy testutil.FullyQualifiedImage
         (mkVulnzSigningPolicy "p" (mkRequirements "HIGH" "" []))
         testutil.QualifiedImage
         [mkVulnerability "LOW" true "CVE-0"; mkVulnerability "bogus" true "CVE-1"]).2
      = Some err) /\
  Forall (fun viol => vulnerability_ viol <> mkVulnerability "bogus" true "CVE-1")
    (ValidateVulnzSigningPolicy testutil.FullyQualifiedImage
       (mkVulnzSigningPolicy "p" (mkRequirements "HIGH" "" []))
       testutil.QualifiedImage
       [mkVulnerability "LOW" true "CVE-0"; mkVulnerability "bogus" true "CVE-1"]).1.
Proof.
  apply (unrecognized_severity_is_error testutil.FullyQualifiedImage
           (mkVulnzSigningPolicy "p" (mkRequirements "HIGH" "" []))
           testutil.QualifiedImage
           [mkVulnerability "LOW" true "CVE-0"; mkVulnerability "bogus" true "CVE-1"]
           (mkVulnerability "bogus" true "CVE-1")).
  - reflexivity.
  - right; left.
  - unfold allowlisted. vm_compute. discriminate.
  - unfold sentinel. vm_compute. intros [Heq|Heq]; discriminate.
  - right. unfold recognized. vm_compute. intros [x Hx]. discriminate.
Defined.

(** A fixable critical vulnerability over a threshold of HIGH, followed by
    a vulnerability of unknown severity: the error comes with the
    violation of the first. *)
Lemma violations_partial_on_error_witness :
  let vsp := mkVulnzSigningPolicy "p" (mkRequirements "HIGH" "" []) in
  let image := testutil.QualifiedImage in
  let critical := mkVulnerability "CRITICAL" true "CVE-1" in
  let unknown := mkVulnerability "bogus" true "CVE-2" in
  let violations :=
    [mkViolation critical SeverityViolation
       (FixableSeverityViolationReason image critical vsp)] in
  ValidateVulnzSigningPolicy testutil.FullyQualifiedImage vsp image
    [critical; unknown]
  = (violations, Some "invalid severity level: bogus") /\
  exists pre v post,
    [critical; unknown] = pre ++ v :: post /\
    ValidateVulnzSigningPolicy testutil.FullyQualifiedImage vsp image pre
    = (violations, None).
Proof.
  cbv zeta.
  assert (ValidateVulnzSigningPolicy testutil.FullyQualifiedImage
            (mkVulnzSigningPolicy "p" (mkRequirements "HIGH" "" []))
            testutil.QualifiedImage
            [mkVulnerability "CRITICAL" true "CVE-1";
             mkVulnerability "bogus" true "CVE-2"]
          = ([mkViolation (mkVulnerability "CRITICAL" true "CVE-1")
                SeverityViolation
                (FixableSeverityViolationReason testutil.QualifiedImage
                   (mkVulnerability "CRITICAL" true "CVE-1")
                   (mkVulnzSigningPolicy "p" (mkRequirements "HIGH" "" [])))],
             Some "invalid severity level: bogus")) as Hrun
    by (vm_compute; reflexivity).
  split; [exact Hrun|].
  destruct (violations_partial_on_error _ _ _ _ _ _ Hrun)
    as (pre & v & post & Hsplit & Hpre & _).
  exists pre, v, post. split; [exact Hsplit|exact Hpre].
Defined.

(** The scenario of the design document: a fixable critical vulnerability
    under a threshold of HIGH is one violation, and none once its CVE is
    allowlisted. *)
Example scenario_fixable_violation :
  ValidateVulnzSigningPolicy testutil.FullyQualifiedImage
    (mkVulnzSigningPolicy "p" (mkRequirements "HIGH" "" []))
    "gcr.io/p/img@sha256:abc" [mkVulnerability "CRITICAL" true "CVE-1"]
  = ([mkViolation (mkVulnerability "CRITICAL" true "CVE-1") SeverityViolation
        (FixableSeverityViolationReason "gcr.io/p/img@sha256:abc"
           (mkVulnerability "CRITICAL" true "CVE-1")
           (mkVulnzSigningPolicy "p" (mkRequirements "HIGH" "" [])))], None).
Proof. vm_compute. reflexivity. Qed.

Example scenario_allowlisted_cve :
  ValidateVulnzSigningPolicy testutil.FullyQualifiedImage
    (mkVulnzSigningPolicy "p" (mkRequirements "HIGH" "" ["CVE-1"]))
    "gcr.io/p/img@sha256:abc" [mkVulnerability "CRITICAL" true "CVE-1"]
  = ([], None).
Proof. vm_compute. reflexivity. Qed.

(** The sentinels come first: under the default unfixable threshold,
    ALLOW_ALL, a severity is not even looked up. *)
Example sentinel_threshold_skips_lookup :
  ValidateVulnzSigningPolicy testutil.FullyQualifiedImage
    (mkVulnzSigningPolicy "p" (mkRequirements "" "" []))
    "gcr.io/p/img@sha256:abc" [mkVulnerability "bogus" false "CVE-1"]
  = ([], None).
Proof. vm_compute. reflexivity. Qed.

End evaluator.

(** ** The attestation signer *)

Module signing.
Import cryptolib signer vocabulary.

End signing.

(** ** Public keys *)

Module keys.
Import cryptolib vocabulary.

Lemma hex_digits_of_byte (x : Byte.byte) :
  let n := Byte.to_N x in
  upperHexValue (upperHexDigit (n / 16)) = Some (n / 16)%N /\
  upperHexValue (upperHexDigit (n mod 16)) = Some (n mod 16)%N /\
  Byte.of_N (16 * (n / 16) + n mod 16) = Some x.
Proof. destruct x; vm_compute; repeat split; reflexivity. Qed.

(** [sprintfX] writes upper-case hexadecimal: reading it back gives the
    bytes. *)
Lemma parse_sprintfX (b : bytes) : parseUpperHex (sprintfX b) = Some b.
Proof.
  induction b as [|x b IH]; [reflexivity|].
  change (sprintfX (x :: b))
    with (String (upperHexDigit (Byte.to_N x / 16))
            (String (upperHexDigit (Byte.to_N x mod 16)) (sprintfX b))).
  cbn [parseUpperHex].
  destruct (hex_digits_of_byte x) as (Hhi & Hlo & Hbyte).
  rewrite Hhi, Hlo, IH, Hbyte. reflexivity.
Qed.

(** C9: for a PGP key, [NewPublicKey] does not look at the key ID it is
    given; when the armored key ring holds exactly one key the ID of the
    result is the upper-case hexadecimal fingerprint of that key, and in
    every other case (no key, several keys, unreadable ring) the result is
    an error. *)
Theorem pgp_key_id_is_fingerprint `{Externals} (alg : SignatureAlgorithm)
    (keyData : bytes) (keyID : string) :
  (forall keyID',
      NewPublicKey Pgp alg keyData keyID' = NewPublicKey Pgp alg keyData keyID) /\
  match ReadArmoredKeyRing keyData with
  | Ok [entity] =>
    NewPublicKey Pgp alg keyData keyID
    = Ok (mkPublicKey Pgp alg keyData (sprintfX (Fingerprint entity))) /\
    parseUpperHex (sprintfX (Fingerprint entity)) = Some (Fingerprint entity)
  | Ok _ | Err _ => isOk (NewPublicKey Pgp alg keyData keyID) = false
  end.
Proof.
  split; [reflexivity|].
  unfold NewPublicKey, extractPgpKeyID.
  destruct (ReadArmoredKeyRing keyData) as [[|entity [|other ring]]|err];
    simpl; try reflexivity.
  split; [reflexivity|apply parse_sprintfX].
Qed.

Example pgp_key_id_ignores_given_id :
  @NewPublicKey testutil.toyExternals Pgp 0 (testutil.bytesOf "key") "given-id"
  = Ok (mkPublicKey Pgp 0 (testutil.bytesOf "key") "6B6579").
Proof. reflexivity. Qed.

Example sprintfX_is_upper_case :
  sprintfX (testutil.bytesOf "Jz~") = "4A7A7E".
Proof. reflexivity. Qed.
End keys.


(** ** The review engine *)

Module admission.
Import cryptolib review vocabulary.

Section Engine.
Context `{Externals}.
Variable globalAllowlist : list string.
Variable patternMatches : string -> string -> bool.
Variable CreateAttestation : string -> PGPSigningSecret -> result Attestation.

Lemma hasValidImageAttestations_spec image atts auth :
  hasValidImageAttestations image atts auth = true <->
  Exists (verifies image auth) atts.
Proof.
  unfold hasValidImageAttestations, verifies.
  destruct (NewVerifier image (authPublicKeys auth)) as [v|err].
  - rewrite existsb_exists, Exists_exists. split.
    + intros (att & Hin & Hok). exists att. split; [apply list_elem_of_In, Hin|].
      exists v. split; [reflexivity|]. apply bool_decide_eq_true in Hok. exact Hok.
    + intros (att & Hin & v' & Hv & Hok). injection Hv as <-.
      exists att. split; [apply list_elem_of_In, Hin|].
      apply bool_decide_eq_true. exact Hok.
  - split; [discriminate|].
    rewrite Exists_exists. intros (att & _ & v & Hv & _). discriminate.
Qed.

Lemma fetchAndVerifyAttestations_spec c image auth :
  fetchAndVerifyAttestations c image auth = true <-> attestedBy c image auth.
Proof. apply hasValidImageAttestations_spec. Qed.

Lemma forallb_fullQuorum c image auths :
  forallb (fetchAndVerifyAttestations c image) auths = true <->
  fullQuorum c image auths.
Proof.
  unfold fullQuorum. rewrite forallb_forall, Forall_forall. split.
  - intros Hall auth Hin. apply fetchAndVerifyAttestations_spec, Hall.
    apply list_elem_of_In, Hin.
  - intros Hall auth Hin. apply fetchAndVerifyAttestations_spec, Hall.
    apply list_elem_of_In, Hin.
Qed.

Lemma RemoveGloballyAllowedImages_single image :
  image ∉ globalAllowlist ->
  RemoveGloballyAllowedImages globalAllowlist [image] = [image].
Proof.
  intros Hnot. unfold RemoveGloballyAllowedImages.
  rewrite filter_cons_True by exact Hnot. reflexivity.
Qed.





Lemma ReviewISP_single cfg image isp c th :
  image ∉ globalAllowlist ->
  ReviewISP globalAllowlist CreateAttestation cfg [image] [isp] c th
  = reviewImageISP CreateAttestation cfg image isp th c.
Proof.
  intros Hnot. unfold ReviewISP.
  rewrite RemoveGloballyAllowedImages_single by exact Hnot. simpl.
  destruct (reviewImageISP CreateAttestation cfg image isp th c)
    as [[[err|] th'] c']; reflexivity.
Qed.






(** C1: for an image that the allowlist patterns of a policy do not match,
    the policy is satisfied iff its authority list is non-empty and every
    listed authority has at least one attestation, among those fetched for
    the image, that verifies against its keys.  A policy one of whose
    authorities has no verifying attestation is not satisfied, a policy
    with no authority is never satisfied; the review of the image against
    the policy records [true] and passes in the first case, records [false]
    and fails in the others. *)
Theorem gap_satisfied_iff_full_quorum (cfg : Config) (c : MetadataClient)
    (image : string) (gap : GenericAttestationPolicy)
    (auths : list AttestationAuthority) (th : MemoryStrategy) :
  image ∉ globalAllowlist ->
  isAllowlisted patternMatches gap image = false ->
  getAttestationAuthoritiesForGAP cfg gap = Ok auths ->
  let satisfied :=
    AttestationAuthorityNames gap <> [] /\ fullQuorum c image auths in
  let run := ReviewGAP globalAllowlist patternMatches cfg [image] [gap] c th in
  (reviewPolicy patternMatches cfg c image gap = Ok SatisfiedByAttestations
   <-> satisfied) /\
  (~ satisfied -> reviewPolicy patternMatches cfg c image gap = Ok Unsatisfied) /\
  (satisfied -> run = (None, HandleAttestation image true th)) /\
  (~ satisfied -> exists err, run = (Some err, HandleAttestation image false th)) /\
  (forall auth, auth ∈ auths -> ~ attestedBy c image auth -> ~ satisfied) /\
  (AttestationAuthorityNames gap = [] -> ~ satisfied).
Proof.
  intros Hglobal Hallow Hauths satisfied run.
  assert (reviewPolicy patternMatches cfg c image gap
          = match AttestationAuthorityNames gap with
            | [] => Ok Unsatisfied
            | _ :: _ =>
              if forallb (fetchAndVerifyAttestations c image) auths
              then Ok SatisfiedByAttestations else Ok Unsatisfied
            end) as Hpolicy.
  { unfold reviewPolicy. rewrite Hallow, Hauths. reflexivity. }
  assert (satisfied <->
          reviewPolicy patternMatches cfg c image gap = Ok SatisfiedByAttestations)
    as Hiff.
  { unfold satisfied. rewrite Hpolicy, <- forallb_fullQuorum.
    destruct (AttestationAuthorityNames gap) as [|name names].
    - split; [intros [Hne _]; congruence|discriminate].
    - destruct (forallb _ auths); split.
      + reflexivity.
      + intros _. split; [discriminate|reflexivity].
      + intros [_ Hfalse]. discriminate.
      + discriminate. }
  assert (~ satisfied ->
          reviewPolicy patternMatches cfg c image gap = Ok Unsatisfied) as Hnot.
  { intros Hns. rewrite Hiff in Hns. rewrite Hpolicy in Hns |- *.
    destruct (AttestationAuthorityNames gap); [reflexivity|].
    destruct (forallb _ auths); [congruence|reflexivity]. }
  assert (run = match reviewPolicy patternMatches cfg c image gap with
                | Ok SatisfiedByAttestations =>
                  (None, HandleAttestation image true th)
                | Ok Unsatisfied =>
                  (Some ("image is not attested: " +:+ image),
                   HandleAttestation image false th)
                | Ok SatisfiedByAllowlist => (None, th)
                | Err err => (Some err, th)
                end) as Hrun.
  { unfold run, ReviewGAP.
    rewrite RemoveGloballyAllowedImages_single by exact Hglobal. simpl.
    destruct (reviewPolicy patternMatches cfg c image gap) as [[| |]|err];
      reflexivity. }
  split; [symmetry; exact Hiff|]. split; [exact Hnot|].
  split; [|split; [|split]].
  - intros Hs. apply Hiff in Hs. rewrite Hrun, Hs. reflexivity.
  - intros Hns. rewrite Hrun, (Hnot Hns). eauto.
  - intros auth Hin Hno [_ Hall]. apply Hno.
    unfold fullQuorum in Hall. rewrite Forall_forall in Hall. apply Hall, Hin.
  - intros Hnil [Hne _]. congruence.
Qed.

(** C2, as amended: an image that matches an allowlist pattern of a policy
    which lists at least one authority satisfies the policy whatever the
    authority resolver and the metadata client are (no authority is
    resolved, no attestation fetched nor verified), and its review against
    that policy, followed by any others, returns no error and leaves the
    recording strategy as it was. *)
Theorem allowlisted_image_satisfies_policy (image : string)
    (gap : GenericAttestationPolicy) :
  isAllowlisted patternMatches gap image = true ->
  AttestationAuthorityNames gap <> [] ->
  (forall cfg c,
      reviewPolicy patternMatches cfg c image gap = Ok SatisfiedByAllowlist) /\
  (forall cfg c rest th,
      ReviewGAP globalAllowlist patternMatches cfg [image] (gap :: rest) c th
      = (None, th)).
Proof.
  intros Hallow Hne.
  assert (forall cfg c,
             reviewPolicy patternMatches cfg c image gap = Ok SatisfiedByAllowlist)
    as Hpolicy.
  { intros cfg c. unfold reviewPolicy. rewrite Hallow.
    destruct (AttestationAuthorityNames gap); [congruence|reflexivity]. }
  split; [exact Hpolicy|].
  intros cfg c rest th. unfold ReviewGAP, RemoveGloballyAllowedImages.
  destruct (decide (image ∉ globalAllowlist)) as [Hnot|Hin].
  - rewrite filter_cons_True by exact Hnot. simpl. rewrite Hpolicy. reflexivity.
  - rewrite filter_cons_False by exact Hin. reflexivity.
Qed.


(** C3: for an image with an attestation that verifies against the
    authority of the policy and with violations of the vulnerability
    policy, the review passes in webhook mode and hands no violation to the
    recording strategy, while in periodic mode it hands it the violations
    and fails. *)
Theorem attested_image_with_violations (cfg : Config) (c : MetadataClient)
    (image : string) (isp : ImageSecurityPolicy) (auth : AttestationAuthority)
    (violations : list Violation) (th : MemoryStrategy) :
  image ∉ globalAllowlist ->
  getAttestationAuthorityForISP cfg isp = Ok (Some auth) ->
  Validate cfg isp image c = (violations, None) ->
  violations <> [] ->
  attestedBy c image auth ->
  let run := ReviewISP globalAllowlist CreateAttestation cfg [image] [isp] c th in
  if IsWebhook cfg then
    run = (None, HandleAttestation image true th, c) /\
    Violations run.1.2 = Violations th
  else
    (exists err,
        run = (Some err,
               HandleViolation image violations (HandleAttestation image true th),
               c)) /\
    Violations run.1.2 = <[image := true]> (Violations th).
Proof.
  intros Hglobal Hauth Hvalidate Hviol Hattested run. unfold run.
  rewrite ReviewISP_single by exact Hglobal.
  unfold reviewImageISP. rewrite Hauth, Hvalidate.
  apply fetchAndVerifyAttestations_spec in Hattested. rewrite Hattested.
  destruct (IsWebhook cfg).
  - split; reflexivity.
  - destruct violations as [|v vs]; [congruence|]. simpl.
    split; [eauto|reflexivity].
Qed.


End Engine.

(** The concrete runs that follow are on the fixtures of the tests. *)
#[local] Existing Instance testutil.toyExternals.

(** Membership in a list of literals, by evaluation. *)
Ltac by_evaluation :=
  match goal with
  | |- ?P => refine (@bool_decide_unpack P _ _); vm_compute; exact I
  end.

(** The policy with the two attestors, on an image attested by both, and
    on the same image attested by the first only. *)
Lemma gap_satisfied_iff_full_quorum_witness :
  let gap := mkGAP "foo" [] ["test"; "test2"] in
  let image := testutil.QualifiedImage in
  ReviewGAP testutil.globalAllowlist testutil.patternMatches testutil.gapConfig
    [image] [gap] (testutil.MockMetadataClient [testutil.att1; testutil.att2])
    emptyStrategy
  = (None, HandleAttestation image true emptyStrategy) /\
  exists err,
    ReviewGAP testutil.globalAllowlist testutil.patternMatches testutil.gapConfig
      [image] [gap] (testutil.MockMetadataClient [testutil.att1]) emptyStrategy
    = (Some err, HandleAttestation image false emptyStrategy).
Proof.
  cbv zeta. split.
  - destruct (gap_satisfied_iff_full_quorum testutil.globalAllowlist
                testutil.patternMatches testutil.gapConfig
                (testutil.MockMetadataClient [testutil.att1; testutil.att2])
                testutil.QualifiedImage (mkGAP "foo" [] ["test"; "test2"])
                [testutil.authTest; testutil.authTest2] emptyStrategy
                ltac:(by_evaluation) eq_refl eq_refl)
      as (Hiff & _ & Hsat & _).
    apply Hsat, Hiff. reflexivity.
  - destruct (gap_satisfied_iff_full_quorum testutil.globalAllowlist
                testutil.patternMatches testutil.gapConfig
                (testutil.MockMetadataClient [testutil.att1])
                testutil.QualifiedImage (mkGAP "foo" [] ["test"; "test2"])
                [testutil.authTest; testutil.authTest2] emptyStrategy
                ltac:(by_evaluation) eq_refl eq_refl)
      as (Hiff & _ & _ & Hunsat & _).
    apply Hunsat. intros Hsat. apply Hiff in Hsat. discriminate Hsat.
Defined.

(** C2 fails on the policy without attestor: the image matches its
    allowlist pattern, and yet the policy is not satisfied and the review
    returns an error (the row of TestReviewGAP that expects it). *)
Lemma allowlisted_zero_authorities_counterexample :
  let gap := mkGAP "foo" [mkPattern "allowed_image_name"] [] in
  let image := "allowed_image_name" in
  isAllowlisted testutil.patternMatches gap image = true /\
  reviewPolicy testutil.patternMatches testutil.gapConfig
    (testutil.MockMetadataClient []) image gap = Ok Unsatisfied /\
  ReviewGAP testutil.globalAllowlist testutil.patternMatches testutil.gapConfig
    [image] [gap] (testutil.MockMetadataClient []) emptyStrategy
  = (Some "image is not attested: allowed_image_name",
     HandleAttestation image false emptyStrategy).
Proof. cbv zeta. split; [|split]; vm_compute; reflexivity. Qed.

(** The allowlisted image under the policy with one attestor, followed by
    a policy it does not satisfy. *)
Lemma allowlisted_image_satisfies_policy_witness :
  let gap := mkGAP "foo" [mkPattern "allowed_image_name"] ["test"] in
  let image := "allowed_image_name" in
  isAllowlisted testutil.patternMatches gap image = true /\
  ReviewGAP testutil.globalAllowlist testutil.patternMatches testutil.gapConfig
    [image] [gap; mkGAP "bar" [] ["test2"]] (testutil.MockMetadataClient [])
    emptyStrategy
  = (None, emptyStrategy).
Proof.
  cbv zeta. split; [reflexivity|].
  apply (allowlisted_image_satisfies_policy testutil.globalAllowlist
           testutil.patternMatches "allowed_image_name"
           (mkGAP "foo" [mkPattern "allowed_image_name"] ["test"])
           eq_refl ltac:(discriminate)).
Defined.



(** The vulnerable image with its attestation, in both modes. *)
Lemma attested_image_with_violations_witness :
  let image := testutil.vulnImage in
  let c := testutil.MockMetadataClient [testutil.attestationOf image testutil.sec] in
  let isp := mkISP "foo" "test" "test" (mkRequirements "" "" []) in
  ReviewISP testutil.globalAllowlist testutil.CreateAttestation
    (testutil.ispConfig true) [image] [isp] c emptyStrategy
  = (None, HandleAttestation image true emptyStrategy, c) /\
  exists err,
    ReviewISP testutil.globalAllowlist testutil.CreateAttestation
      (testutil.ispConfig false) [image] [isp] c emptyStrategy
    = (Some err,
       HandleViolation image (testutil.mockValidate isp image c).1
         (HandleAttestation image true emptyStrategy), c).
Proof.
  cbv zeta. split.
  - apply (attested_image_with_violations testutil.globalAllowlist
             testutil.CreateAttestation (testutil.ispConfig true)
             (testutil.MockMetadataClient
                [testutil.attestationOf testutil.vulnImage testutil.sec])
             testutil.vulnImage (mkISP "foo" "test" "test" (mkRequirements "" "" []))
             (mkAuthority "test" "projects/test-1/notes/note-1"
                (testutil.publicKeyOf testutil.sec))
             _ emptyStrategy ltac:(by_evaluation) eq_refl eq_refl
             ltac:(discriminate)).
    apply fetchAndVerifyAttestations_spec. reflexivity.
  - apply (attested_image_with_violations testutil.globalAllowlist
             testutil.CreateAttestation (testutil.ispConfig false)
             (testutil.MockMetadataClient
                [testutil.attestationOf testutil.vulnImage testutil.sec])
             testutil.vulnImage (mkISP "foo" "test" "test" (mkRequirements "" "" []))
             (mkAuthority "test" "projects/test-1/notes/note-1"
                (testutil.publicKeyOf testutil.sec))
             _ emptyStrategy ltac:(by_evaluation) eq_refl eq_refl
             ltac:(discriminate)).
    apply fetchAndVerifyAttestations_spec. reflexivity.
Defined.


End admission.

(** * Further properties *)

(** ** The vulnerability policy evaluator, as a whole *)

Module policy.
Import vulnzsigningpolicy vocabulary terms.

Lemma fold_allowlist_lookup (cves : list string) (m : gmap string bool) (cve : string) :
  mapGetBool (fold_left (fun m w => <[w := true]> m) cves m) cve = true <->
  cve ∈ cves \/ mapGetBool m cve = true.
Proof.
  revert m. induction cves as [|w cves IH]; intros m; simpl.
  - split; [auto|]. intros [Hin|Hm]; [inversion Hin|exact Hm].
  - rewrite IH. unfold mapGetBool.
    destruct (decide (w = cve)) as [->|Hne].
    + rewrite lookup_insert_eq. simpl. split; [intros _; left; left|auto].
    + rewrite lookup_insert_ne by exact Hne. split.
      * intros [Hin|Hm]; [left; right; exact Hin|right; exact Hm].
      * intros [Hin|Hm]; [|right; exact Hm].
        apply elem_of_cons in Hin as [Heq|Hin]; [congruence|left; exact Hin].
Qed.

Lemma allowlisted_iff (vsp : VulnzSigningPolicy) (v : Vulnerability) :
  allowlisted vsp v <-> CVE v ∈ AllowlistCVEs (vspRequirements vsp).
Proof.
  unfold allowlisted, makeCVEAllowlistMap. rewrite fold_allowlist_lookup.
  split; [|auto]. intros [Hin|Hempty]; [exact Hin|].
  unfold mapGetBool in Hempty. rewrite lookup_empty in Hempty. discriminate.
Qed.

(** X1: the allowlist map reads [true] exactly at the CVEs of the policy's
    allowlist, duplicates and order being of no account. *)
Theorem allowlist_map_membership (vsp : VulnzSigningPolicy) (cve : string) :
  mapGetBool (makeCVEAllowlistMap vsp) cve = true <->
  cve ∈ AllowlistCVEs (vspRequirements vsp).
Proof.
  unfold makeCVEAllowlistMap. rewrite fold_allowlist_lookup.
  split; [|auto]. intros [Hin|Hempty]; [exact Hin|].
  unfold mapGetBool in Hempty. rewrite lookup_empty in Hempty. discriminate.
Qed.

Section WithSeverities.
Context `{constants.Names} `{vulnerability.Table}.

Section Loop.
Variables (vsp : VulnzSigningPolicy) (image : string).

Let loop := rangeVulnz vsp image (maxFixableSeverity vsp)
              (maxUnfixableSeverity vsp) (makeCVEAllowlistMap vsp).

(** A run without error appends the violations of the vulnerabilities that
    fail their comparison, in the order met. *)
Lemma loop_is_filter vulnz acc violations :
  loop vulnz acc = (violations, None) ->
  violations = acc ++ map (violationOf vsp image) (List.filter (violates vsp) vulnz).
Proof.
  revert acc. induction vulnz as [|v rest IH]; intros acc Hrun.
  - simpl in Hrun. injection Hrun as <-. simpl. rewrite app_nil_r. reflexivity.
  - unfold loop in Hrun. rewrite evaluator.loop_cons in Hrun. fold loop in Hrun.
    cbn [List.filter]. unfold violates at 1.
    destruct (mapGetBool (makeCVEAllowlistMap vsp) (CVE v)); simpl.
    + apply IH, Hrun.
    + destruct (severityWithinThreshold (applicableThreshold vsp v) (Severity v))
        as [[|] [err|]]; try discriminate.
      * rewrite bool_decide_eq_false_2 by discriminate. apply IH, Hrun.
      * rewrite bool_decide_eq_true_2 by reflexivity.
        rewrite (IH _ Hrun), <- app_assoc. reflexivity.
Qed.

Lemma loop_no_error_iff vulnz acc :
  (loop vulnz acc).2 = None <-> Forall (comparesCleanly vsp) vulnz.
Proof.
  revert acc. induction vulnz as [|v rest IH]; intros acc.
  - simpl. split; [constructor|reflexivity].
  - unfold loop. rewrite evaluator.loop_cons. fold loop.
    rewrite Forall_cons. unfold comparesCleanly at 1, allowlisted.
    destruct (mapGetBool (makeCVEAllowlistMap vsp) (CVE v)).
    + rewrite IH. tauto.
    + destruct (severityWithinThreshold (applicableThreshold vsp v) (Severity v))
        as [[|] [err|]]; simpl; rewrite ?IH.
      * split; [discriminate|]. intros [[Hf|Hf] _]; discriminate.
      * split; [intros Hrest; split; [right; reflexivity|exact Hrest]|tauto].
      * split; [discriminate|]. intros [[Hf|Hf] _]; discriminate.
      * split; [intros Hrest; split; [right; reflexivity|exact Hrest]|tauto].
Qed.
End Loop.

Lemma Validate_qualified_loop (fq : string -> bool) vsp image vulnz :
  fq image = true ->
  ValidateVulnzSigningPolicy fq vsp image vulnz
  = rangeVulnz vsp image (maxFixableSeverity vsp) (maxUnfixableSeverity vsp)
      (makeCVEAllowlistMap vsp) vulnz [].
Proof.
  intros Hq. unfold ValidateVulnzSigningPolicy. rewrite Hq. simpl.
  destruct vulnz; reflexivity.
Qed.

Lemma rank_order_noStricter (threshold threshold' : string) (rank rank' : Z) :
  threshold <> constants.AllowAll ->
  ~ sentinel threshold' ->
  vulnerability.Severity_value !! threshold = Some rank ->
  vulnerability.Severity_value !! threshold' = Some rank' ->
  rank <= rank' ->
  noStricter threshold threshold'.
Proof.
  intros Hallow Hsent Hrank Hrank' Hle severity.
  unfold severityWithinThreshold, sentinel in *.
  destruct (decide (threshold' = constants.BlockAll)) as [->|_]; [tauto|].
  destruct (decide (threshold' = constants.AllowAll)) as [->|_]; [tauto|].
  rewrite Hrank', Hrank.
  destruct (decide (threshold = constants.BlockAll)); [reflexivity|].
  destruct (decide (threshold = constants.AllowAll)); [contradiction|].
  destruct (vulnerability.Severity_value !! severity) as [q|]; [|discriminate].
  intros Hover. injection Hover as Hover.
  apply Z.leb_gt in Hover. f_equal. apply Z.leb_gt. lia.
Qed.

Lemma filter_implies_sublist {A} (f g : A -> bool) (l : list A) :
  (forall x, f x = true -> g x = true) ->
  sublist (List.filter f l) (List.filter g l).
Proof.
  intros Himp. induction l as [|x l IH]; simpl; [constructor|].
  destruct (f x) eqn:Hf.
  - rewrite (Himp x Hf). constructor. exact IH.
  - destruct (g x); [constructor|]; exact IH.
Qed.

Lemma vulnerability_of_violationOf vsp image (l : list Vulnerability) :
  map vulnerability_ (map (violationOf vsp image) l) = l.
Proof. induction l as [|v l IH]; simpl; [reflexivity|]. rewrite IH. reflexivity. Qed.

(** X2: on a qualified image, an evaluation that returns no error returns
    one violation for each vulnerability that is not allowlisted and is over
    its threshold, in the order of the input, each with the type and the
    reason of its kind (fixable or not), and nothing else. *)
Theorem evaluation_is_filter (fq : string -> bool) (vsp : VulnzSigningPolicy)
    (image : string) (vulnz : list Vulnerability) (violations : list Violation) :
  fq image = true ->
  ValidateVulnzSigningPolicy fq vsp image vulnz = (violations, None) ->
  violations = map (violationOf vsp image) (List.filter (violates vsp) vulnz).
Proof.
  intros Hq Hrun. rewrite (Validate_qualified_loop fq vsp image vulnz Hq) in Hrun.
  apply (loop_is_filter vsp image vulnz [] violations Hrun).
Qed.

(** X3: the evaluation returns an error exactly when the image is qualified
    and some vulnerability that is not allowlisted cannot be compared with
    its threshold. *)
Theorem evaluation_error_iff (fq : string -> bool) (vsp : VulnzSigningPolicy)
    (image : string) (vulnz : list Vulnerability) :
  (ValidateVulnzSigningPolicy fq vsp image vulnz).2 = None <->
  fq image = false \/ Forall (comparesCleanly vsp) vulnz.
Proof.
  destruct (fq image) eqn:Hq.
  - rewrite (Validate_qualified_loop fq vsp image vulnz Hq), loop_no_error_iff.
    split; [auto|]. intros [Hf|Hall]; [discriminate|exact Hall].
  - unfold ValidateVulnzSigningPolicy. rewrite Hq. simpl. split; auto.
Qed.

(** X4: when every vulnerability has its CVE in the allowlist of the
    policy, the evaluation of a qualified image returns no violation and no
    error, whatever the thresholds and the severities are, recognized or
    not; so does the evaluation of an empty list. *)
Theorem allowlisted_vulnerabilities_pass (fq : string -> bool)
    (vsp : VulnzSigningPolicy) (image : string) (vulnz : list Vulnerability) :
  fq image = true ->
  Forall (fun v => CVE v ∈ AllowlistCVEs (vspRequirements vsp)) vulnz ->
  ValidateVulnzSigningPolicy fq vsp image vulnz = ([], None).
Proof.
  intros Hq Hall. rewrite (Validate_qualified_loop fq vsp image vulnz Hq).
  assert (Forall (comparesCleanly vsp) vulnz) as Hclean.
  { eapply Forall_impl; [exact Hall|]. intros v Hin. left.
    apply allowlisted_iff, Hin. }
  apply (loop_no_error_iff vsp image vulnz []) in Hclean.
  destruct (rangeVulnz vsp image (maxFixableSeverity vsp)
              (maxUnfixableSeverity vsp) (makeCVEAllowlistMap vsp) vulnz [])
    as [violations err] eqn:Hrun.
  simpl in Hclean. subst err.
  rewrite (loop_is_filter vsp image vulnz [] violations Hrun). simpl.
  replace (List.filter (violates vsp) vulnz) with (@nil Vulnerability);
    [reflexivity|].
  symmetry. clear Hrun. induction Hall as [|v rest Hin Hrest IH]; [reflexivity|].
  simpl. unfold violates at 1.
  apply allowlisted_iff in Hin. unfold allowlisted in Hin. rewrite Hin. simpl.
  exact IH.
Qed.

(** X5: the order of the thresholds as the comparison has it.  BLOCK_ALL is
    the strictest; ALLOW_ALL, when it is another name than BLOCK_ALL,
    rejects nothing; and between two thresholds of the table the one of
    lower rank rejects whatever the other rejects. *)
Theorem threshold_order (threshold : string) :
  noStricter constants.BlockAll threshold /\
  (constants.AllowAll <> constants.BlockAll ->
   forall severity,
     severityWithinThreshold constants.AllowAll severity = (true, None)) /\
  (forall threshold' rank rank',
      threshold <> constants.AllowAll ->
      ~ sentinel threshold' ->
      vulnerability.Severity_value !! threshold = Some rank ->
      vulnerability.Severity_value !! threshold' = Some rank' ->
      rank <= rank' ->
      noStricter threshold threshold').
Proof.
  split; [|split].
  - intros severity _. unfold severityWithinThreshold.
    destruct (decide (constants.BlockAll = constants.BlockAll)); [reflexivity|].
    congruence.
  - intros Hne severity. unfold severityWithinThreshold.
    destruct (decide (constants.AllowAll = constants.BlockAll)); [contradiction|].
    destruct (decide (constants.AllowAll = constants.AllowAll)); [reflexivity|].
    congruence.
  - intros threshold' rank rank'. apply rank_order_noStricter.
Qed.

(** X6: relaxing the thresholds of a policy never adds a violation.  For
    two policies with the same CVE allowlist, the second with thresholds no
    stricter than the first, and evaluations that both return no error, the
    vulnerabilities in violation under the second are among those in
    violation under the first, in the same order. *)
Theorem relaxed_thresholds_fewer_violations (fq : string -> bool)
    (vsp vsp' : VulnzSigningPolicy) (image : string)
    (vulnz : list Vulnerability) (violations violations' : list Violation) :
  fq image = true ->
  AllowlistCVEs (vspRequirements vsp') = AllowlistCVEs (vspRequirements vsp) ->
  noStricter (maxFixableSeverity vsp) (maxFixableSeverity vsp') ->
  noStricter (maxUnfixableSeverity vsp) (maxUnfixableSeverity vsp') ->
  ValidateVulnzSigningPolicy fq vsp image vulnz = (violations, None) ->
  ValidateVulnzSigningPolicy fq vsp' image vulnz = (violations', None) ->
  sublist (map vulnerability_ violations') (map vulnerability_ violations).
Proof.
  intros Hq Hallow Hfix Hnofix Hrun Hrun'.
  rewrite (Validate_qualified_loop fq vsp image vulnz Hq) in Hrun.
  rewrite (Validate_qualified_loop fq vsp' image vulnz Hq) in Hrun'.
  rewrite (loop_is_filter vsp image vulnz [] violations Hrun).
  rewrite (loop_is_filter vsp' image vulnz [] violations' Hrun').
  simpl. rewrite !vulnerability_of_violationOf.
  apply filter_implies_sublist. intros v. unfold violates.
  assert (makeCVEAllowlistMap vsp' = makeCVEAllowlistMap vsp) as ->.
  { unfold makeCVEAllowlistMap. rewrite Hallow. reflexivity. }
  destruct (mapGetBool (makeCVEAllowlistMap vsp) (CVE v)); simpl; [discriminate|].
  intros Hover. apply bool_decide_eq_true in Hover. apply bool_decide_eq_true.
  unfold applicableThreshold in *.
  destruct (HasFixAvailable v); [apply Hfix|apply Hnofix]; exact Hover.
Qed.

End WithSeverities.

#[local] Existing Instance testutil.severityNames.
#[local] Existing Instance testutil.severityTable.

(** An allowlist with a repeated CVE. *)
Lemma allowlist_map_membership_witness :
  let vsp :=
    mkVulnzSigningPolicy "p" (mkRequirements "" "" ["CVE-1"; "CVE-2"; "CVE-1"]) in
  mapGetBool (makeCVEAllowlistMap vsp) "CVE-2" = true /\
  mapGetBool (makeCVEAllowlistMap vsp) "CVE-3" = false.
Proof.
  cbv zeta. split.
  - apply allowlist_map_membership. simpl. right; left.
  - apply not_true_is_false. intros Hin.
    apply allowlist_map_membership in Hin. simpl in Hin.
    repeat (apply elem_of_cons in Hin as [Heq|Hin]; [discriminate Heq|]).
    inversion Hin.
Defined.

(** A policy with a fixable threshold of MEDIUM and one allowlisted CVE, on
    four vulnerabilities: one within the threshold, one over it, one over it
    but allowlisted, one unfixable. *)
Lemma evaluation_is_filter_witness :
  let vsp := mkVulnzSigningPolicy "p" (mkRequirements "MEDIUM" "LOW" ["CVE-3"]) in
  let image := testutil.QualifiedImage in
  let low := mkVulnerability "LOW" true "CVE-1" in
  let high := mkVulnerability "HIGH" true "CVE-2" in
  let listed := mkVulnerability "CRITICAL" true "CVE-3" in
  let unfixable := mkVulnerability "MEDIUM" false "CVE-4" in
  let violations :=
    [mkViolation high SeverityViolation
       (FixableSeverityViolationReason image high vsp);
     mkViolation unfixable FixUnavailableViolation
       (UnfixableSeverityViolationReason image unfixable vsp)] in
  ValidateVulnzSigningPolicy testutil.FullyQualifiedImage vsp image
    [low; high; listed; unfixable] = (violations, None) /\
  violations
  = map (violationOf vsp image)
      (List.filter (violates vsp) [low; high; listed; unfixable]).
Proof.
  cbv zeta.
  match goal with
  | |- ?run = ?res /\ _ => assert (run = res) as Hrun by (vm_compute; reflexivity)
  end.
  split; [exact Hrun|].
  exact (evaluation_is_filter testutil.FullyQualifiedImage _ testutil.QualifiedImage
           _ _ eq_refl Hrun).
Defined.

(** A vulnerability of unknown severity: an error unless its CVE is
    allowlisted. *)
Lemma evaluation_error_iff_witness :
  let unknown := mkVulnerability "bogus" true "CVE-1" in
  (ValidateVulnzSigningPolicy testutil.FullyQualifiedImage
     (mkVulnzSigningPolicy "p" (mkRequirements "HIGH" "" ["CVE-1"]))
     testutil.QualifiedImage [unknown]).2 = None /\
  (ValidateVulnzSigningPolicy testutil.FullyQualifiedImage
     (mkVulnzSigningPolicy "p" (mkRequirements "HIGH" "" []))
     testutil.QualifiedImage [unknown]).2 <> None.
Proof.
  cbv zeta. split.
  - apply evaluation_error_iff. right. constructor; [|constructor].
    left. vm_compute. reflexivity.
  - intros Hnone. apply evaluation_error_iff in Hnone as [Hq|Hall]; [discriminate|].
    apply Forall_cons in Hall as [[Hallow|Hclean] _]; vm_compute in *; discriminate.
Defined.

(** Thresholds that are not in the table at all, and an allowlist that
    covers the scan. *)
Lemma allowlisted_vulnerabilities_pass_witness :
  ValidateVulnzSigningPolicy testutil.FullyQualifiedImage
    (mkVulnzSigningPolicy "p" (mkRequirements "bogus" "bogus" ["CVE-1"; "CVE-2"]))
    testutil.QualifiedImage
    [mkVulnerability "unknown" true "CVE-2"; mkVulnerability "HIGH" false "CVE-1"]
  = ([], None).
Proof.
  apply allowlisted_vulnerabilities_pass; [reflexivity|].
  repeat constructor.
Defined.

(** BLOCK_ALL and LOW against HIGH, and ALLOW_ALL on an unknown severity. *)
Lemma threshold_order_witness :
  noStricter "BLOCK_ALL" "HIGH" /\
  severityWithinThreshold "ALLOW_ALL" "bogus" = (true, None) /\
  noStricter "LOW" "HIGH".
Proof.
  destruct (threshold_order "LOW") as (_ & _ & Hrank).
  destruct (threshold_order "HIGH") as (Hblock & Hallow & _).
  split; [exact Hblock|]. split; [apply Hallow; discriminate|].
  apply (Hrank "HIGH" 2 4).
  - discriminate.
  - intros [Heq|Heq]; discriminate.
  - reflexivity.
  - reflexivity.
  - lia.
Defined.

(** The same scan under a threshold of LOW and under a threshold of HIGH. *)
Lemma relaxed_thresholds_fewer_violations_witness :
  let medium := mkVulnerability "MEDIUM" true "CVE-1" in
  let critical := mkVulnerability "CRITICAL" true "CVE-2" in
  let strict := mkVulnzSigningPolicy "strict" (mkRequirements "LOW" "" []) in
  let lax := mkVulnzSigningPolicy "lax" (mkRequirements "HIGH" "" []) in
  let image := testutil.QualifiedImage in
  sublist
    (map vulnerability_
       (ValidateVulnzSigningPolicy testutil.FullyQualifiedImage lax image
          [medium; critical]).1)
    (map vulnerability_
       (ValidateVulnzSigningPolicy testutil.FullyQualifiedImage strict image
          [medium; critical]).1).
Proof.
  cbv zeta.
  assert (exists violations,
             ValidateVulnzSigningPolicy testutil.FullyQualifiedImage
               (mkVulnzSigningPolicy "strict" (mkRequirements "LOW" "" []))
               testutil.QualifiedImage
               [mkVulnerability "MEDIUM" true "CVE-1";
                mkVulnerability "CRITICAL" true "CVE-2"] = (violations, None))
    as [violations Hrun] by (eexists; vm_compute; reflexivity).
  assert (exists violations,
             ValidateVulnzSigningPolicy testutil.FullyQualifiedImage
               (mkVulnzSigningPolicy "lax" (mkRequirements "HIGH" "" []))
               testutil.QualifiedImage
               [mkVulnerability "MEDIUM" true "CVE-1";
                mkVulnerability "CRITICAL" true "CVE-2"] = (violations, None))
    as [violations' Hrun'] by (eexists; vm_compute; reflexivity).
  rewrite Hrun, Hrun'. simpl.
  apply (relaxed_thresholds_fewer_violations testutil.FullyQualifiedImage
           (mkVulnzSigningPolicy "strict" (mkRequirements "LOW" "" []))
           (mkVulnzSigningPolicy "lax" (mkRequirements "HIGH" "" []))
           testutil.QualifiedImage
           [mkVulnerability "MEDIUM" true "CVE-1";
            mkVulnerability "CRITICAL" true "CVE-2"]
           violations violations' eq_refl eq_refl).
  - apply (rank_order_noStricter "LOW" "HIGH" 2 4); try reflexivity; try lia;
      [discriminate|intros [Heq|Heq]; discriminate].
  - intros severity. vm_compute. discriminate.
  - exact Hrun.
  - exact Hrun'.
Defined.

End policy.

(** ** The signer, in every case *)

Module protocol.
Import cryptolib signer vocabulary terms.

(** X7: when the existence query fails, [SignImage] returns its error under
    the heading of the checking phase and calls nothing else: no delete, no
    create, no upload, whatever the overwrite flag and whatever list came
    with the error. *)
Theorem query_failure_stops_signer {B : Type} (payloadOf : string -> result bytes)
    (s : Signer B) (image : string) (b b1 : B) (log : list Call)
    (atts : list Attestation) (err : error) :
  Attestations (client s) image (authority (config_ s)) b = ((atts, Some err), b1) ->
  SignImage payloadOf s image (mkWorld b log)
  = (Some (checkingFailed +:+ err),
     mkWorld b1 (log ++ [CallAttestations image (authority (config_ s))])).
Proof.
  intros Hatts. unfold SignImage, isAttestationAlreadyExist, bind, call, ret. simpl.
  rewrite Hatts. simpl. reflexivity.
Qed.

(** X8: when the existence query succeeds and returns nothing, the overwrite
    flag plays no part: the run is the same with the flag set or not, and no
    delete is called. *)
Theorem overwrite_irrelevant_without_attestation {B : Type}
    (payloadOf : string -> result bytes) (s : Signer B) (image : string)
    (b b1 : B) (log : list Call) (flag : bool) :
  Attestations (client s) image (authority (config_ s)) b = (([], None), b1) ->
  SignImage payloadOf (withOverwrite flag s) image (mkWorld b log)
  = SignImage payloadOf s image (mkWorld b log) /\
  countCalls isDelete (calls (SignImage payloadOf s image (mkWorld b log)).2)
  = countCalls isDelete log.
Proof.
  intros Hatts.
  unfold SignImage, isAttestationAlreadyExist, createAttestation,
    uploadAttestation, withOverwrite, bind, call, ret. simpl.
  rewrite Hatts. simpl. split; [reflexivity|].
  assert (forall l l', countCalls isDelete (l ++ l')
                       = (countCalls isDelete l + countCalls isDelete l')%nat)
    as Happ.
  { intros l l'. unfold countCalls. rewrite List.filter_app, length_app. reflexivity. }
  destruct (payloadOf image) as [payload|e]; simpl.
  - destruct (CreateAttestation _ _ _) as [[att|e] b3]; simpl.
    + destruct (GetOrCreateAttestationNote _ _ _) as [[note|e] b4]; simpl.
      * destruct (UploadAttestationOccurrence _ _ _ _ _ _ _) as [[occ|e] b5];
          simpl; rewrite !Happ; unfold countCalls; simpl; lia.
      * rewrite !Happ; unfold countCalls; simpl; lia.
    + rewrite !Happ; unfold countCalls; simpl; lia.
  - rewrite !Happ; unfold countCalls; simpl; lia.
Qed.






(** A store that cannot be read, under a signer that overwrites. *)
Lemma query_failure_stops_signer_witness :
  SignImage testutil.AtomicContainerPayload (testutil.unreadableSigner true)
    testutil.QualifiedImage (mkWorld testutil.signedStore [])
  = (Some "checking existing attestation status failed: unavailable",
     mkWorld testutil.signedStore
       [CallAttestations testutil.QualifiedImage
          (mkAuthority "signing-aa" "projects/p/notes/n" [])]).
Proof.
  exact (query_failure_stops_signer testutil.AtomicContainerPayload
           (testutil.unreadableSigner true) testutil.QualifiedImage
           testutil.signedStore testutil.signedStore [] [] "unavailable" eq_refl).
Defined.

(** An empty store: the signer that overwrites runs as the one that does
    not. *)
Lemma overwrite_irrelevant_without_attestation_witness :
  SignImage testutil.AtomicContainerPayload
    (withOverwrite true (testutil.mockSigner false false))
    testutil.QualifiedImage (mkWorld [] [])
  = SignImage testutil.AtomicContainerPayload (testutil.mockSigner false false)
      testutil.QualifiedImage (mkWorld [] []).
Proof.
  exact (proj1 (overwrite_irrelevant_without_attestation
                  testutil.AtomicContainerPayload (testutil.mockSigner false false)
                  testutil.QualifiedImage [] [] [] true eq_refl)).
Defined.



End protocol.

(** ** The key registry and the verifier *)

Module registry.
Import cryptolib vocabulary terms.

Lemma fold_index_lookup (keys : list PublicKey) (m : gmap string PublicKey)
    (id : string) :
  fold_left (fun keyMap publicKey => <[ID publicKey := publicKey]> keyMap) keys m
  !! id
  = match keyFor keys id with
    | Some key => Some key
    | None => m !! id
    end.
Proof.
  revert m. induction keys as [|k keys IH]; intros m; [reflexivity|].
  simpl. rewrite IH. unfold keyFor. simpl.
  destruct (decide (ID k = id)) as [Heq|Hne].
  - rewrite bool_decide_eq_true_2 by exact Heq.
    destruct (List.filter _ keys) as [|k' rest] eqn:Hfilter.
    + simpl. rewrite <- Heq, lookup_insert_eq. reflexivity.
    + change (last (k :: k' :: rest)) with (last (k' :: rest)).
      destruct (last (k' :: rest)) eqn:Hlast; [reflexivity|].
      apply last_None in Hlast. discriminate.
  - rewrite bool_decide_eq_false_2 by exact Hne.
    rewrite lookup_insert_ne by exact Hne. reflexivity.
Qed.

Lemma index_lookup (keys : list PublicKey) (id : string) :
  indexPublicKeysByID keys !! id = keyFor keys id.
Proof.
  unfold indexPublicKeysByID. rewrite fold_index_lookup, lookup_empty.
  destruct (keyFor keys id); reflexivity.
Qed.

Lemma keyFor_ID (keys : list PublicKey) (id : string) (key : PublicKey) :
  keyFor keys id = Some key -> key ∈ keys /\ ID key = id.
Proof.
  unfold keyFor. intros Hlast.
  assert (In key (List.filter (fun key => bool_decide (ID key = id)) keys)) as Hin.
  { apply list_elem_of_In, last_Some_elem_of, Hlast. }
  apply List.filter_In in Hin as [Hin Hid].
  split; [apply list_elem_of_In, Hin|apply bool_decide_eq_true in Hid; exact Hid].
Qed.

(** X11: the index of a key set, read at an ID, gives the last key of the
    set that carries this ID, and nothing when no key carries it: of two
    keys with the same ID the later one is kept. *)
Theorem key_registry_last_wins (keys : list PublicKey) (id : string) :
  indexPublicKeysByID keys !! id = keyFor keys id /\
  (indexPublicKeysByID keys !! id = None <-> Forall (fun key => ID key <> id) keys) /\
  (forall key, indexPublicKeysByID (keys ++ [key]) !! ID key = Some key).
Proof.
  split; [apply index_lookup|]. split.
  - rewrite index_lookup. unfold keyFor. rewrite last_None, Forall_forall.
    split.
    + intros Hnil key Hin Hid.
      assert (In key (List.filter (fun key => bool_decide (ID key = id)) keys))
        as Hfilter.
      { apply List.filter_In. split; [apply list_elem_of_In, Hin|].
        apply bool_decide_eq_true. exact Hid. }
      rewrite Hnil in Hfilter. exact Hfilter.
    + intros Hall.
      destruct (List.filter _ keys) as [|key rest] eqn:Hfilter; [reflexivity|].
      assert (In key (List.filter (fun key => bool_decide (ID key = id)) keys))
        as Hin by (rewrite Hfilter; left; reflexivity).
      apply List.filter_In in Hin as [Hin Hid].
      apply bool_decide_eq_true in Hid.
      exfalso. apply (Hall key); [apply list_elem_of_In, Hin|exact Hid].
  - intros key. rewrite index_lookup. unfold keyFor.
    rewrite List.filter_app. simpl.
    rewrite bool_decide_eq_true_2 by reflexivity. apply last_snoc.
Qed.

Section WithExternals.
Context `{Externals}.

Lemma NewVerifier_inv image keys v :
  NewVerifier image keys = Ok v ->
  exists digest,
    NewDigest image = Ok digest /\
    v = mkVerifier (RepositoryName digest) (DigestStr digest)
          (indexPublicKeysByID keys) verifyPkixImpl verifyPgpImpl verifyJwtImpl
          checkAuthenticatedAttestationImpl.
Proof.
  unfold NewVerifier. destruct (NewDigest image) as [digest|err]; [|discriminate].
  intros Hv. injection Hv as <-. exists digest. split; reflexivity.
Qed.

(** X12: verifying against a key set is verifying against one key, the last
    of the set that carries the key ID of the attestation; the other keys,
    and earlier keys with the same ID, have no part in the result. *)
Theorem verification_uses_last_key (image : string) (keys : list PublicKey)
    (key : PublicKey) (att : Attestation) (v v1 : verifier) :
  NewVerifier image keys = Ok v ->
  NewVerifier image [key] = Ok v1 ->
  keyFor keys (PublicKeyID att) = Some key ->
  VerifyAttestation v att = VerifyAttestation v1 att.
Proof.
  intros Hv Hv1 Hkey.
  apply NewVerifier_inv in Hv as (digest & Hdigest & ->).
  apply NewVerifier_inv in Hv1 as (digest1 & Hdigest1 & ->).
  rewrite Hdigest in Hdigest1. injection Hdigest1 as <-.
  unfold VerifyAttestation. simpl PublicKeys.
  rewrite !index_lookup, Hkey.
  destruct (keyFor_ID keys _ key Hkey) as [_ Hid].
  unfold keyFor. simpl. rewrite bool_decide_eq_true_2 by exact Hid. reflexivity.
Qed.

(** X13: an attestation verifies for an image against a key set exactly
    when the last key of the set with its key ID is a PGP or a JWT key, the
    signature scheme of that key recovers a payload from the signature, and
    that payload is accepted for the repository and the digest of the
    image. *)
Theorem verification_succeeds_iff (image : string) (keys : list PublicKey)
    (att : Attestation) (v : verifier) :
  NewVerifier image keys = Ok v ->
  (VerifyAttestation v att = None <->
   exists key digest payload,
     keyFor keys (PublicKeyID att) = Some key /\
     NewDigest image = Ok digest /\
     (KeyType_ key = Pgp /\
      verifyPgpImpl (Signature att) (KeyData key) = Ok payload \/
      KeyType_ key = Jwt /\
      verifyJwtImpl (Signature att) key = Ok payload) /\
     checkAuthenticatedAttestationImpl payload (RepositoryName digest)
       (DigestStr digest) = None).
Proof.
  intros Hv. apply NewVerifier_inv in Hv as (digest & Hdigest & ->).
  unfold VerifyAttestation. simpl. rewrite index_lookup. split.
  - destruct (keyFor keys (PublicKeyID att)) as [key|]; [|discriminate].
    destruct (KeyType_ key) eqn:Htype; try discriminate.
    + destruct (verifyPgpImpl (Signature att) (KeyData key)) as [payload|err]
        eqn:Hpgp; [|discriminate].
      intros Hcheck. exists key, digest, payload.
      split; [reflexivity|]. split; [exact Hdigest|].
      split; [left; split; [exact Htype|exact Hpgp]|exact Hcheck].
    + destruct (verifyJwtImpl (Signature att) key) as [payload|err] eqn:Hjwt;
        [|discriminate].
      intros Hcheck. exists key, digest, payload.
      split; [reflexivity|]. split; [exact Hdigest|].
      split; [right; split; [exact Htype|exact Hjwt]|exact Hcheck].
  - intros (key & digest' & payload & Hkey & Hdigest' & Hscheme & Hcheck).
    rewrite Hdigest in Hdigest'. injection Hdigest' as <-. rewrite Hkey.
    destruct Hscheme as [[Htype Hpgp]|[Htype Hjwt]]; rewrite Htype.
    + rewrite Hpgp. exact Hcheck.
    + rewrite Hjwt. exact Hcheck.
Qed.

(** X14: what never verifies.  An attestation whose key ID no key of the
    set carries is refused for want of a key; one whose key is a PKIX key
    is refused because PKIX verification is not implemented, whatever its
    signature and payload; one whose key has no known type is refused as
    well. *)
Theorem verification_refused (image : string) (keys : list PublicKey)
    (att : Attestation) (v : verifier) :
  NewVerifier image keys = Ok v ->
  match keyFor keys (PublicKeyID att) with
  | None => is_Some (VerifyAttestation v att)
  | Some key =>
    match KeyType_ key with
    | Pkix => VerifyAttestation v att = Some "verify pkix not implemented"
    | UnknownKeyType =>
      VerifyAttestation v att = Some "signature uses an unsupported key mode"
    | Pgp | Jwt => True
    end
  end.
Proof.
  intros Hv. apply NewVerifier_inv in Hv as (digest & Hdigest & ->).
  unfold VerifyAttestation. simpl. rewrite index_lookup.
  destruct (keyFor keys (PublicKeyID att)) as [key|]; [|eexists; reflexivity].
  destruct (KeyType_ key); try reflexivity; exact I.
Qed.

Lemma containsColon_spec (s : string) : containsColon s = true <-> hasColon s.
Proof.
  unfold hasColon. induction s as [|c s IH]; simpl.
  - split; [discriminate|]. intros (before & after & Heq).
    destruct before; discriminate.
  - destruct (decide (c = ":"%char)) as [->|Hne].
    + split; [|reflexivity]. intros _. exists "", s. reflexivity.
    + rewrite IH. split.
      * intros (before & after & ->). exists (String c before), after. reflexivity.
      * intros (before & after & Heq). destruct before as [|c' before].
        -- simpl in Heq. injection Heq as Hc _. congruence.
        -- simpl in Heq. injection Heq as _ Hs. eauto.
Qed.

(** X15: a public key is built around what it is given.  A key that
    [NewPublicKey] returns has the type, the algorithm and the key material
    of the call, its type is one of PGP, PKIX and JWT, and for PKIX and JWT
    its ID is the ID of the call. *)
Theorem new_public_key_keeps_material (keyType : KeyType)
    (alg : SignatureAlgorithm) (keyData : bytes) (keyID : string)
    (key : PublicKey) :
  NewPublicKey keyType alg keyData keyID = Ok key ->
  KeyType_ key = keyType /\
  SignatureAlgorithm_ key = alg /\
  KeyData key = keyData /\
  keyType <> UnknownKeyType /\
  (keyType <> Pgp -> ID key = keyID).
Proof.
  unfold NewPublicKey, extractPkixKeyID.
  destruct keyType; try discriminate.
  - destruct (extractPgpKeyID keyData); [|discriminate].
    intros Hkey. injection Hkey as <-. repeat split; try discriminate. congruence.
  - destruct (containsColon keyID); [destruct (ParseRequestURI keyID)|];
      try discriminate; intros Hkey; injection Hkey as <-;
      repeat split; discriminate.
  - destruct (containsColon keyID); [destruct (ParseRequestURI keyID)|];
      try discriminate; intros Hkey; injection Hkey as <-;
      repeat split; discriminate.
Qed.

(** X16: the ID of a PKIX or JWT key is accepted exactly when it has no
    colon or parses as a request URI; an ID without colon, the empty one
    included, is never parsed.  PKIX and JWT keys are treated alike. *)
Theorem pkix_key_id_accepted_iff (alg : SignatureAlgorithm) (keyData : bytes)
    (keyID : string) :
  (isOk (NewPublicKey Pkix alg keyData keyID) = true <->
   ~ hasColon keyID \/ ParseRequestURI keyID = None) /\
  isOk (NewPublicKey Jwt alg keyData keyID)
  = isOk (NewPublicKey Pkix alg keyData keyID).
Proof.
  split;
    [|unfold NewPublicKey; destruct (extractPkixKeyID keyData keyID); reflexivity].
  unfold NewPublicKey, extractPkixKeyID. rewrite <- containsColon_spec.
  destruct (containsColon keyID).
  - destruct (ParseRequestURI keyID); simpl.
    + split; [discriminate|]. intros [Hno|Hnone]; [exfalso; auto|discriminate].
    + split; auto.
  - simpl. split; [|reflexivity]. intros _. left. discriminate.
Qed.

(** X17: two PGP keys have the same ID exactly when their key rings hold
    the same fingerprint, and the ID has two characters for each byte of
    the fingerprint. *)
Theorem pgp_key_ids_distinguish_fingerprints (alg1 alg2 : SignatureAlgorithm)
    (keyData1 keyData2 : bytes) (keyID1 keyID2 : string)
    (entity1 entity2 : Entity) (key1 key2 : PublicKey) :
  ReadArmoredKeyRing keyData1 = Ok [entity1] ->
  ReadArmoredKeyRing keyData2 = Ok [entity2] ->
  NewPublicKey Pgp alg1 keyData1 keyID1 = Ok key1 ->
  NewPublicKey Pgp alg2 keyData2 keyID2 = Ok key2 ->
  (ID key1 = ID key2 <-> Fingerprint entity1 = Fingerprint entity2) /\
  String.length (ID key1) = (2 * length (Fingerprint entity1))%nat.
Proof.
  intros Hring1 Hring2. unfold NewPublicKey, extractPgpKeyID.
  rewrite Hring1, Hring2. intros Hkey1 Hkey2.
  injection Hkey1 as <-. injection Hkey2 as <-. simpl. split.
  - split; [|intros ->; reflexivity]. intros Hid.
    pose proof (keys.parse_sprintfX (Fingerprint entity1)) as Hparse1.
    pose proof (keys.parse_sprintfX (Fingerprint entity2)) as Hparse2.
    rewrite Hid, Hparse2 in Hparse1. injection Hparse1 as ->. reflexivity.
  - generalize (Fingerprint entity1). intros b.
    induction b as [|x b IH]; [reflexivity|].
    change (sprintfX (x :: b))
      with (String (upperHexDigit (Byte.to_N x / 16))
              (String (upperHexDigit (Byte.to_N x mod 16)) (sprintfX b))).
    simpl String.length. rewrite IH. simpl. lia.
Qed.

End WithExternals.

#[local] Existing Instance testutil.toyExternals.

(** The key of the first secret preceded by a PKIX key with the same ID:
    the attestation made with the secret verifies, as against the key
    alone. *)
Lemma verification_uses_last_key_witness :
  let key := mkPublicKey Pgp 0 (review.PgpKey testutil.sec)
               (PublicKeyID testutil.att1) in
  let shadowed := mkPublicKey Pkix 0 [] (PublicKeyID testutil.att1) in
  exists v,
    NewVerifier testutil.QualifiedImage [shadowed; key] = Ok v /\
    VerifyAttestation v testutil.att1 = None.
Proof.
  cbv zeta.
  destruct (NewVerifier testutil.QualifiedImage
              [mkPublicKey Pkix 0 [] (PublicKeyID testutil.att1);
               mkPublicKey Pgp 0 (review.PgpKey testutil.sec)
                 (PublicKeyID testutil.att1)]) as [v|e] eqn:Hv;
    [|vm_compute in Hv; discriminate Hv].
  destruct (NewVerifier testutil.QualifiedImage
              [mkPublicKey Pgp 0 (review.PgpKey testutil.sec)
                 (PublicKeyID testutil.att1)]) as [v1|e] eqn:Hv1;
    [|vm_compute in Hv1; discriminate Hv1].
  exists v. split; [reflexivity|].
  rewrite (verification_uses_last_key _ _ _ testutil.att1 v v1 Hv Hv1 eq_refl).
  unfold NewVerifier in Hv1. simpl in Hv1. injection Hv1 as <-.
  vm_compute. reflexivity.
Defined.

(** The attestation of the first secret against the key of the first
    secret. *)
Lemma verification_succeeds_iff_witness :
  exists v,
    NewVerifier testutil.QualifiedImage (testutil.publicKeyOf testutil.sec) = Ok v /\
    VerifyAttestation v testutil.att1 = None.
Proof.
  destruct (NewVerifier testutil.QualifiedImage (testutil.publicKeyOf testutil.sec))
    as [v|e] eqn:Hv; [|vm_compute in Hv; discriminate Hv].
  exists v. split; [reflexivity|].
  apply (verification_succeeds_iff testutil.QualifiedImage
           (testutil.publicKeyOf testutil.sec) testutil.att1 v Hv).
  eexists _, _, _. split; [reflexivity|]. split; [reflexivity|].
  split; [left; split; reflexivity|reflexivity].
Defined.

(** The same attestation against a PKIX key with its ID. *)
Lemma verification_refused_witness :
  exists v,
    NewVerifier testutil.QualifiedImage
      [mkPublicKey Pkix 0 (review.PgpKey testutil.sec) (PublicKeyID testutil.att1)]
    = Ok v /\
    VerifyAttestation v testutil.att1 = Some "verify pkix not implemented".
Proof.
  destruct (NewVerifier testutil.QualifiedImage
              [mkPublicKey Pkix 0 (review.PgpKey testutil.sec)
                 (PublicKeyID testutil.att1)]) as [v|e] eqn:Hv;
    [|vm_compute in Hv; discriminate Hv].
  exists v. split; [reflexivity|].
  exact (verification_refused testutil.QualifiedImage
           [mkPublicKey Pkix 0 (review.PgpKey testutil.sec)
              (PublicKeyID testutil.att1)]
           testutil.att1 v Hv).
Defined.

(** Two keys with one ID and a third with another. *)
Lemma key_registry_last_wins_witness :
  let first := mkPublicKey Pgp 0 (testutil.bytesOf "one") "A" in
  let second := mkPublicKey Jwt 0 (testutil.bytesOf "two") "A" in
  let other := mkPublicKey Pkix 0 (testutil.bytesOf "three") "B" in
  indexPublicKeysByID [first; second; other] !! "A" = Some second /\
  indexPublicKeysByID [first; second; other] !! "C" = None.
Proof.
  cbv zeta.
  destruct (key_registry_last_wins
              [mkPublicKey Pgp 0 (testutil.bytesOf "one") "A";
               mkPublicKey Jwt 0 (testutil.bytesOf "two") "A";
               mkPublicKey Pkix 0 (testutil.bytesOf "three") "B"] "A")
    as (Hlookup & _ & _).
  destruct (key_registry_last_wins
              [mkPublicKey Pgp 0 (testutil.bytesOf "one") "A";
               mkPublicKey Jwt 0 (testutil.bytesOf "two") "A";
               mkPublicKey Pkix 0 (testutil.bytesOf "three") "B"] "C")
    as (_ & Hnone & _).
  split; [rewrite Hlookup; reflexivity|].
  apply Hnone. repeat constructor; discriminate.
Defined.

(** An ID without colon. *)
Lemma pkix_key_id_accepted_iff_witness :
  isOk (NewPublicKey Pkix 0 (testutil.bytesOf "material") "key-id") = true.
Proof.
  apply (proj1 (pkix_key_id_accepted_iff 0 (testutil.bytesOf "material") "key-id")).
  left. intros Hcolon. apply containsColon_spec in Hcolon. discriminate Hcolon.
Defined.

(** A JWT key with an ID without colon. *)
Lemma new_public_key_keeps_material_witness :
  exists key,
    NewPublicKey Jwt 7 (testutil.bytesOf "material") "my-key" = Ok key /\
    KeyData key = testutil.bytesOf "material" /\
    ID key = "my-key".
Proof.
  destruct (NewPublicKey Jwt 7 (testutil.bytesOf "material") "my-key")
    as [key|e] eqn:Hkey; [|vm_compute in Hkey; discriminate Hkey].
  exists key. split; [reflexivity|].
  destruct (new_public_key_keeps_material Jwt 7 (testutil.bytesOf "material")
              "my-key" key Hkey) as (_ & _ & Hdata & _ & Hid).
  split; [exact Hdata|apply Hid; discriminate].
Defined.

(** The keys of the two secrets. *)
Lemma pgp_key_ids_distinguish_fingerprints_witness :
  exists key1 key2,
    NewPublicKey Pgp 0 (review.PgpKey testutil.sec) "" = Ok key1 /\
    NewPublicKey Pgp 0 (review.PgpKey testutil.sec2) "" = Ok key2 /\
    ID key1 <> ID key2.
Proof.
  destruct (NewPublicKey Pgp 0 (review.PgpKey testutil.sec) "")
    as [key1|e] eqn:Hkey1; [|vm_compute in Hkey1; discriminate Hkey1].
  destruct (NewPublicKey Pgp 0 (review.PgpKey testutil.sec2) "")
    as [key2|e] eqn:Hkey2; [|vm_compute in Hkey2; discriminate Hkey2].
  exists key1, key2. split; [reflexivity|]. split; [reflexivity|].
  destruct (pgp_key_ids_distinguish_fingerprints (H := testutil.toyExternals) 0 0
              (review.PgpKey testutil.sec) (review.PgpKey testutil.sec2) "" ""
              (mkEntity (review.PgpKey testutil.sec))
              (mkEntity (review.PgpKey testutil.sec2)) key1 key2
              ltac:(reflexivity) ltac:(reflexivity) Hkey1 Hkey2) as [Hiff _].
  intros Hsame. apply Hiff in Hsame. discriminate Hsame.
Defined.

End registry.

(** ** The signer command *)

Module command.
Import vocabulary terms signermain.

Section WithBackend.
Context {B F : Type}.
Context `{constants.Names} `{vulnerability.Table}.

Lemma checkBlock_calls (sys : System B F) flags client w :
  signer.calls (checkBlock sys flags client w).2 = signer.calls w.
Proof.
  unfold checkBlock.
  destruct (osOpen sys (policyPath flags)) as [file|e]; [|reflexivity].
  destruct (decodePolicy sys file) as [policy|e]; [|reflexivity].
  destruct (ParseDuration sys (vulnzTimeout flags)) as [timeout|e]; [|reflexivity].
  destruct (WaitForVulnzAnalysis client (image flags) timeout (signer.backend w))
    as [[e|] b1]; [reflexivity|]. simpl.
  destruct (Vulnerabilities client (image flags) b1) as [[[vulnz|] [e|]] b2];
    try reflexivity.
  destruct (vulnzsigningpolicy.ValidateVulnzSigningPolicy _ _ _ _)
    as [violations [e|]]; [reflexivity|].
  destruct (negb _); reflexivity.
Qed.

(** How the check block ends, by the evaluation it reached. *)
Lemma checkBlock_outcome (sys : System B F) flags client w :
  newClient sys = Ok client ->
  match (checkBlock sys flags client w).1 with
  | None =>
    exists policy vulnz,
      evaluated sys flags w policy vulnz /\
      vulnzsigningpolicy.ValidateVulnzSigningPolicy (FullyQualifiedImage sys)
        policy (image flags) vulnz = ([], None)
  | Some (Exited code) =>
    code = 1 /\
    exists policy vulnz violations,
      evaluated sys flags w policy vulnz /\
      vulnzsigningpolicy.ValidateVulnzSigningPolicy (FullyQualifiedImage sys)
        policy (image flags) vulnz = (violations, None) /\
      violations <> []
  | Some (Fatal _) => True
  | Some Returned => False
  end.
Proof.
  intros Hclient. unfold checkBlock.
  destruct (osOpen sys (policyPath flags)) as [file|e] eqn:Hopen; [|exact I].
  destruct (decodePolicy sys file) as [policy|e] eqn:Hdecode; [|exact I].
  destruct (ParseDuration sys (vulnzTimeout flags)) as [timeout|e] eqn:Htimeout;
    [|exact I].
  destruct (WaitForVulnzAnalysis client (image flags) timeout (signer.backend w))
    as [[e|] b1] eqn:Hwait; [exact I|]. simpl.
  destruct (Vulnerabilities client (image flags) b1) as [[[vulnz|] [e|]] b2]
    eqn:Hvulnz; try exact I.
  assert (evaluated sys flags w policy vulnz) as Hevaluated.
  { exists client, file, timeout, b1, b2. auto 10. }
  destruct (vulnzsigningpolicy.ValidateVulnzSigningPolicy _ _ _ _)
    as [violations [e|]] eqn:Hvalidate; [exact I|].
  destruct violations as [|violation violations]; simpl.
  - exists policy, vulnz. auto.
  - split; [reflexivity|]. exists policy, vulnz, (violation :: violations).
    split; [exact Hevaluated|]. split; [exact Hvalidate|discriminate].
Qed.

Lemma signBlock_never_exits (sys : System B F) flags client w code :
  (signBlock sys flags client w).1 <> Exited code.
Proof.
  unfold signBlock.
  destruct (chooseSigner sys flags) as [fatal|cSigner] eqn:Hchoose.
  - unfold chooseSigner in Hchoose.
    destruct (_ && _); [injection Hchoose as <-; discriminate|].
    destruct (negb (bool_decide (kmsKeyName flags = ""))).
    + destruct (decide (kmsDigestAlg flags = ""));
        [injection Hchoose as <-; discriminate|].
      destruct (NewCloudKmsSigner _ _ _); [discriminate|].
      injection Hchoose as <-; discriminate.
    + destruct (negb (bool_decide (pgpPassphrase flags = "")));
        [injection Hchoose as <-; discriminate|].
      destruct (ReadFile _ _); [|injection Hchoose as <-; discriminate].
      destruct (NewPgpSigner _ _); [discriminate|].
      injection Hchoose as <-; discriminate.
  - destruct (CheckNoteName sys (noteName flags)); [discriminate|].
    destruct (signer.SignImage _ _ _ _) as [[e|] w']; discriminate.
Qed.

Lemma modeSwitch_checks flags doCheck doSign :
  modeSwitch (mode flags) = Some (doCheck, doSign) ->
  (doCheck = true <-> checks flags).
Proof.
  unfold modeSwitch, checks.
  destruct (decide (mode flags = CheckAndSign)) as [->|Hcs].
  { intros Hsw. injection Hsw as <- <-. split; auto. }
  destruct (decide (mode flags = BypassAndSign)) as [Hbs|Hnbs].
  { intros Hsw. injection Hsw as <- <-. split; [discriminate|].
    rewrite Hbs. intros [Hx|Hx]; discriminate. }
  destruct (decide (mode flags = CheckOnly)) as [->|Hco]; [|discriminate].
  intros Hsw. injection Hsw as <- <-. split; auto.
Qed.

(** X18: with a mode that is none of the three, or with an empty image,
    the command ends with a fatal error before it builds a client or
    touches anything. *)
Theorem unusable_flags_are_fatal (flags : Flags) (w : signer.World B) :
  (mode flags <> CheckAndSign /\ mode flags <> CheckOnly /\
   mode flags <> BypassAndSign) \/ image flags = "" ->
  exists message,
    forall sys : System B F, main sys flags w = (Fatal message, w).
Proof.
  intros Hflags.
  destruct (modeSwitch (mode flags)) as [[doCheck doSign]|] eqn:Hswitch.
  - destruct Hflags as [(Hcs & Hco & Hbs)|Himage].
    + unfold modeSwitch in Hswitch.
      destruct (decide (mode flags = CheckAndSign)); [contradiction|].
      destruct (decide (mode flags = BypassAndSign)); [contradiction|].
      destruct (decide (mode flags = CheckOnly)); [contradiction|discriminate].
    + eexists. intros sys. unfold main. rewrite Hswitch.
      destruct (decide (image flags = "")); [reflexivity|contradiction].
  - eexists. intros sys. unfold main. rewrite Hswitch. reflexivity.
Qed.

(** X19: the command attempts to sign, and returns normally, only after a
    clean evaluation when its mode runs the check.  In the modes
    check-and-sign and check-only, if a call was made on the signer's
    collaborators or the command returned, then the check reached the
    evaluation and the evaluation returned no violation and no error. *)
Theorem signing_follows_clean_evaluation (sys : System B F) (flags : Flags)
    (w : signer.World B) :
  checks flags ->
  signer.calls (main sys flags w).2 <> signer.calls w \/
  (main sys flags w).1 = Returned ->
  exists policy vulnz,
    evaluated sys flags w policy vulnz /\
    vulnzsigningpolicy.ValidateVulnzSigningPolicy (FullyQualifiedImage sys)
      policy (image flags) vulnz = ([], None).
Proof.
  intros Hchecks. unfold main.
  destruct (modeSwitch (mode flags)) as [[doCheck doSign]|] eqn:Hswitch.
  - apply modeSwitch_checks in Hswitch. apply Hswitch in Hchecks. subst doCheck.
    destruct (decide (image flags = "")).
    { simpl. intros [Hcalls|Hret]; [congruence|discriminate]. }
    destruct (newClient sys) as [client|e] eqn:Hclient.
    + pose proof (checkBlock_outcome sys flags client w Hclient) as Houtcome.
      pose proof (checkBlock_calls sys flags client w) as Hcalls.
      destruct (checkBlock sys flags client w) as [[termination|] w'].
      * simpl in *. intros [Hgrew|Hret]; [congruence|].
        subst termination. contradiction.
      * intros _. exact Houtcome.
    + simpl. intros [Hcalls|Hret]; [congruence|discriminate].
  - simpl. intros [Hcalls|Hret]; [congruence|discriminate].
Qed.

(** X20: the exit code 1 is the code of a policy violation, and of nothing
    else.  The command exits with a code exactly when its mode runs the
    check, the image is not empty, the check reached the evaluation and the
    evaluation returned violations without error; the code is then 1. *)
Theorem exit_code_means_violations (sys : System B F) (flags : Flags)
    (w : signer.World B) (code : Z) :
  (main sys flags w).1 = Exited code <->
  code = 1 /\ checks flags /\ image flags <> "" /\
  exists policy vulnz violations,
    evaluated sys flags w policy vulnz /\
    vulnzsigningpolicy.ValidateVulnzSigningPolicy (FullyQualifiedImage sys)
      policy (image flags) vulnz = (violations, None) /\
    violations <> [].
Proof.
  unfold main. split.
  - destruct (modeSwitch (mode flags)) as [[doCheck doSign]|] eqn:Hswitch;
      [|discriminate].
    destruct (decide (image flags = "")) as [|Himage]; [discriminate|].
    destruct (newClient sys) as [client|e] eqn:Hclient; [|discriminate].
    destruct doCheck.
    + pose proof (checkBlock_outcome sys flags client w Hclient) as Houtcome.
      destruct (checkBlock sys flags client w) as [[termination|] w'].
      * simpl in *. intros ->. destruct Houtcome as [-> Hrest].
        split; [reflexivity|]. split; [|split; [exact Himage|exact Hrest]].
        apply (modeSwitch_checks flags true doSign Hswitch). reflexivity.
      * destruct doSign; [|discriminate].
        intros Hexit. exfalso. exact (signBlock_never_exits _ _ _ _ _ Hexit).
    + destruct doSign; [|discriminate].
      intros Hexit. exfalso. exact (signBlock_never_exits _ _ _ _ _ Hexit).
  - intros (-> & Hchecks & Himage & policy & vulnz & violations
            & Hevaluated & Hvalidate & Hviolations).
    destruct (modeSwitch (mode flags)) as [[doCheck doSign]|] eqn:Hswitch.
    + apply modeSwitch_checks in Hswitch. apply Hswitch in Hchecks. subst doCheck.
      destruct (decide (image flags = "")); [contradiction|].
      destruct Hevaluated
        as (client & file & timeout & b1 & b2 & Hclient & Hopen & Hdecode
            & Htimeout & Hwait & Hvulnz).
      rewrite Hclient. unfold checkBlock.
      rewrite Hopen, Hdecode, Htimeout, Hwait. simpl.
      rewrite Hvulnz, Hvalidate.
      destruct violations; [congruence|reflexivity].
    + exfalso. unfold modeSwitch, checks in *.
      destruct (decide (mode flags = CheckAndSign)); [discriminate|].
      destruct (decide (mode flags = BypassAndSign)); [discriminate|].
      destruct (decide (mode flags = CheckOnly)); [discriminate|]. tauto.
Qed.

Lemma SignImage_payload_ext (payloadOf payloadOf' : string -> result bytes)
    (s : signer.Signer B) (image : string) (w : signer.World B) :
  payloadOf' image = payloadOf image ->
  signer.SignImage payloadOf' s image w = signer.SignImage payloadOf s image w.
Proof.
  intros Heq. unfold signer.SignImage, signer.createAttestation. rewrite Heq.
  reflexivity.
Qed.

(** X21: in the mode check-only the command never signs.  No call is made
    on the signer's collaborators, and the run is the same for any other
    signing flags, signer constructors and helpers: it depends on what the
    check reads only. *)
Theorem check_only_never_signs (sys sys' : System B F) (flags flags' : Flags)
    (w : signer.World B) :
  mode flags = CheckOnly ->
  sameCheck sys sys' flags flags' ->
  signer.calls (main sys flags w).2 = signer.calls w /\
  main sys' flags' w = main sys flags w.
Proof.
  intros Hmode (Hm & Hi & Ht & Hp & Hopen & Hdecode & Hparse & Hfq & Hclient).
  unfold main. rewrite Hm, Hi, Hmode. simpl.
  destruct (decide (image flags = "")); [split; reflexivity|].
  destruct (newClient sys) as [client|e], (newClient sys') as [client'|e'];
    try contradiction; [|subst e'; split; reflexivity].
  destruct Hclient as [Hwait Hvulnz].
  assert (checkBlock sys' flags' client' w = checkBlock sys flags client w) as ->.
  { unfold checkBlock. rewrite Hp, Hopen, Ht, Hparse, Hi.
    destruct (osOpen sys (policyPath flags)) as [file|e]; [|reflexivity].
    rewrite Hdecode.
    destruct (decodePolicy sys file) as [policy|e]; [|reflexivity].
    destruct (ParseDuration sys (vulnzTimeout flags)) as [timeout|e];
      [|reflexivity].
    rewrite Hwait.
    destruct (WaitForVulnzAnalysis client (image flags) timeout (signer.backend w))
      as [[e|] b1]; [reflexivity|]. simpl. rewrite Hvulnz.
    destruct (Vulnerabilities client (image flags) b1) as [[[vulnz|] [e|]] b2];
      try reflexivity.
    assert (vulnzsigningpolicy.ValidateVulnzSigningPolicy
              (FullyQualifiedImage sys') policy (image flags) vulnz
            = vulnzsigningpolicy.ValidateVulnzSigningPolicy
                (FullyQualifiedImage sys) policy (image flags) vulnz) as ->.
    { unfold vulnzsigningpolicy.ValidateVulnzSigningPolicy. rewrite Hfq.
      reflexivity. }
    reflexivity. }
  pose proof (checkBlock_calls sys flags client w) as Hcalls.
  destruct (checkBlock sys flags client w) as [[termination|] w'];
    split; first [exact Hcalls|reflexivity].
Qed.

(** X22: in the mode bypass-and-sign the command does not check.  The run
    is the same whatever the policy file, the timeout, the qualification of
    the image and the scan are: it depends on what the signing reads
    only. *)
Theorem bypass_and_sign_skips_check (sys sys' : System B F)
    (flags flags' : Flags) (w : signer.World B) :
  mode flags = BypassAndSign ->
  sameSign sys sys' flags flags' ->
  main sys' flags' w = main sys flags w.
Proof.
  intros Hmode (Hm & Hi & Hproject & Hoverwrite & Hnote & Hpath & Hpass & Hkms
                & Halg & Hnewkms & Hread & Hnewpgp & Hcheck & Hget & Hpayload
                & Hclient).
  unfold main. rewrite Hm, Hi, Hmode. simpl.
  destruct (decide (image flags = "")); [reflexivity|].
  destruct (newClient sys) as [client|e], (newClient sys') as [client'|e'];
    try contradiction; [|subst e'; reflexivity].
  unfold signBlock, chooseSigner, projectOf.
  rewrite Hkms, Hpath, Halg, Hpass, Hnewkms, Hread, Hnote, Hcheck, Hproject,
    Hoverwrite, Hi, Hget, Hclient.
  assert (forall cSigner,
             signer.SignImage (AtomicContainerPayload sys')
               (signer.New (readWrite client) cSigner (noteName flags)
                  (if decide (attestationProject flags = "")
                   then GetProjectFromContainerImage sys (image flags)
                   else attestationProject flags) (overwrite flags))
               (image flags) w
             = signer.SignImage (AtomicContainerPayload sys)
                 (signer.New (readWrite client) cSigner (noteName flags)
                    (if decide (attestationProject flags = "")
                     then GetProjectFromContainerImage sys (image flags)
                     else attestationProject flags) (overwrite flags))
                 (image flags) w) as Hsign.
  { intros cSigner. apply SignImage_payload_ext, Hpayload. }
  destruct (_ && _); [reflexivity|].
  destruct (negb (bool_decide (kmsKeyName flags = ""))).
  - destruct (decide (kmsDigestAlg flags = "")); [reflexivity|].
    destruct (NewCloudKmsSigner sys (kmsKeyName flags) (kmsDigestAlg flags));
      [|reflexivity].
    destruct (CheckNoteName sys (noteName flags)); [reflexivity|].
    rewrite Hsign. reflexivity.
  - destruct (negb (bool_decide (pgpPassphrase flags = ""))); [reflexivity|].
    destruct (ReadFile sys (pgpPriKeyPath flags)) as [key|e]; [|reflexivity].
    rewrite Hnewpgp.
    destruct (NewPgpSigner sys key); [|reflexivity].
    destruct (CheckNoteName sys (noteName flags)); [reflexivity|].
    rewrite Hsign. reflexivity.
Qed.

(** X23: a KMS key takes precedence over a PGP key.  When the KMS key is
    named, the PGP key path and the passphrase are not read, nor is the key
    file: the run is the same for any of them, a passphrase, which is fatal
    with a PGP key, included. *)
Theorem kms_key_takes_precedence (sys : System B F) (flags : Flags)
    (w : signer.World B) (path passphrase : string)
    (readFile : string -> result bytes)
    (newPgpSigner : bytes -> result (signer.cSignerT B)) :
  kmsKeyName flags <> "" ->
  main (withPgpSystem readFile newPgpSigner sys)
    (withPgpFlags path passphrase flags) w
  = main sys flags w.
Proof.
  intros Hkms. unfold main, withPgpFlags, withPgpSystem. simpl.
  destruct (modeSwitch (mode flags)) as [[doCheck doSign]|]; [|reflexivity].
  destruct (decide (image flags = "")); [reflexivity|].
  destruct (newClient sys) as [client|e]; [|reflexivity].
  assert (forall w0,
             signBlock
               (mkSystem (newClient sys) (osOpen sys) (decodePolicy sys)
                  (ParseDuration sys) (FullyQualifiedImage sys)
                  (NewCloudKmsSigner sys) readFile newPgpSigner
                  (CheckNoteName sys) (GetProjectFromContainerImage sys)
                  (AtomicContainerPayload sys))
               (mkFlags (mode flags) (image flags) (vulnzTimeout flags)
                  (policyPath flags) (attestationProject flags) (overwrite flags)
                  (noteName flags) path passphrase (kmsKeyName flags)
                  (kmsDigestAlg flags)) client w0
             = signBlock sys flags client w0) as Hsign.
  { intros w0. unfold signBlock, chooseSigner, projectOf. simpl.
    rewrite !(bool_decide_eq_false_2 (kmsKeyName flags = "")) by exact Hkms.
    simpl. reflexivity. }
  destruct doCheck.
  - change (checkBlock _ _ client w) with (checkBlock sys flags client w).
    destruct (checkBlock sys flags client w) as [[termination|] w'];
      [reflexivity|]. destruct doSign; [apply Hsign|reflexivity].
  - destruct doSign; [apply Hsign|reflexivity].
Qed.

End WithBackend.

#[local] Existing Instance testutil.severityNames.
#[local] Existing Instance testutil.severityTable.

(** A mode the command does not know. *)
Lemma unusable_flags_are_fatal_witness :
  main testutil.testSystem
    (testutil.testFlags "sign-everything" testutil.QualifiedImage)
    (signer.mkWorld [] [])
  = (Fatal "Unrecognized mode sign-everything.", signer.mkWorld [] []).
Proof.
  destruct (unusable_flags_are_fatal (F := string)
              (testutil.testFlags "sign-everything" testutil.QualifiedImage)
              (signer.mkWorld (B := list signer.Occurrence) [] []))
    as [message Hfatal].
  - left. repeat split; discriminate.
  - pose proof (Hfatal testutil.testSystem) as Hrun.
    rewrite Hrun. f_equal.
    assert (Fatal message = Fatal "Unrecognized mode sign-everything.") as ->;
      [|reflexivity].
    apply (f_equal fst) in Hrun. simpl in Hrun. symmetry. exact Hrun.
Defined.

(** The image without vulnerabilities, checked and signed. *)
Lemma signing_follows_clean_evaluation_witness :
  let flags := testutil.testFlags CheckAndSign testutil.IntTestImage in
  let w := signer.mkWorld (B := list signer.Occurrence) [] [] in
  (main testutil.testSystem flags w).1 = Returned /\
  exists policy vulnz,
    evaluated testutil.testSystem flags w policy vulnz /\
    vulnzsigningpolicy.ValidateVulnzSigningPolicy testutil.FullyQualifiedImage
      policy testutil.IntTestImage vulnz = ([], None).
Proof.
  cbv zeta. split; [vm_compute; reflexivity|].
  apply (signing_follows_clean_evaluation testutil.testSystem
           (testutil.testFlags CheckAndSign testutil.IntTestImage)
           (signer.mkWorld [] [])).
  - left. reflexivity.
  - right. vm_compute. reflexivity.
Defined.

(** The image with a critical vulnerability, checked against HIGH. *)
Lemma exit_code_means_violations_witness :
  (main testutil.testSystem
     (testutil.testFlags CheckOnly testutil.QualifiedImage)
     (signer.mkWorld [] [])).1 = Exited 1.
Proof.
  apply (exit_code_means_violations testutil.testSystem
           (testutil.testFlags CheckOnly testutil.QualifiedImage)
           (signer.mkWorld [] []) 1).
  split; [reflexivity|]. split; [right; reflexivity|]. split; [discriminate|].
  eexists _, _, _. split.
  - exists testutil.testClient, "policy", 300, (@nil signer.Occurrence),
      (@nil signer.Occurrence).
    repeat split; reflexivity.
  - split; [vm_compute; reflexivity|discriminate].
Defined.

(** The check of the image without vulnerabilities, under other signing
    flags. *)
Lemma check_only_never_signs_witness :
  let flags := testutil.testFlags CheckOnly testutil.IntTestImage in
  let flags' :=
    mkFlags CheckOnly testutil.IntTestImage "5m" "policy.yaml" "other-project"
      true "projects/q/notes/m" "" "secret" "projects/k" "SHA512" in
  let w := signer.mkWorld (B := list signer.Occurrence) [] [] in
  signer.calls (main testutil.testSystem flags w).2 = [] /\
  main testutil.testSystem flags' w = main testutil.testSystem flags w.
Proof.
  cbv zeta.
  apply (check_only_never_signs testutil.testSystem testutil.testSystem
           (testutil.testFlags CheckOnly testutil.IntTestImage)
           (mkFlags CheckOnly testutil.IntTestImage "5m" "policy.yaml"
              "other-project" true "projects/q/notes/m" "" "secret" "projects/k"
              "SHA512")
           (signer.mkWorld [] []) eq_refl).
  unfold sameCheck. simpl. repeat split; reflexivity.
Defined.

(** The signing of the vulnerable image, whatever the policy path and the
    timeout. *)
Lemma bypass_and_sign_skips_check_witness :
  let flags := testutil.testFlags BypassAndSign testutil.QualifiedImage in
  let flags' :=
    mkFlags BypassAndSign testutil.QualifiedImage "never" "missing.yaml" "" false
      "projects/p/notes/n" "private.key" "" "" "" in
  let w := signer.mkWorld (B := list signer.Occurrence) [] [] in
  main testutil.testSystem flags' w = main testutil.testSystem flags w /\
  (main testutil.testSystem flags w).1 = Returned.
Proof.
  cbv zeta. split; [|vm_compute; reflexivity].
  apply (bypass_and_sign_skips_check testutil.testSystem testutil.testSystem
           (testutil.testFlags BypassAndSign testutil.QualifiedImage)
           (mkFlags BypassAndSign testutil.QualifiedImage "never" "missing.yaml"
              "" false "projects/p/notes/n" "private.key" "" "" "")
           (signer.mkWorld [] []) eq_refl).
  unfold sameSign. simpl. repeat split; reflexivity.
Defined.

(** A KMS key, with and without a PGP passphrase. *)
Lemma kms_key_takes_precedence_witness :
  let flags :=
    mkFlags BypassAndSign testutil.QualifiedImage "5m" "policy.yaml" "" false
      "projects/p/notes/n" "" "" "projects/k" "SHA512" in
  let w := signer.mkWorld (B := list signer.Occurrence) [] [] in
  main (withPgpSystem (fun _ => Err "unreadable") (fun _ => Err "not a key")
          testutil.testSystem)
    (withPgpFlags "private.key" "passphrase" flags) w
  = main testutil.testSystem flags w.
Proof.
  cbv zeta.
  apply (kms_key_takes_precedence testutil.testSystem
           (mkFlags BypassAndSign testutil.QualifiedImage "5m" "policy.yaml" ""
              false "projects/p/notes/n" "" "" "projects/k" "SHA512")
           (signer.mkWorld [] []) "private.key" "passphrase").
  discriminate.
Defined.

End command.
